(** * hawkauthlib.utils: a shallow embedding and its verified properties

    The development follows [src/hawkauthlib/utils.py]: the Authorization
    header parser, the two Hawk canonical strings, the signature and the
    timing-safe comparison.

    Modelling conventions.
    - A native string (a WSGI environ value or a request attribute derived
      from one: the Authorization header, the method, the host, the scheme,
      the content type) is a [string]: a sequence of code points below 256
      (PEP 3333).  Parameter dicts hold such strings.  White space,
      [str.lower] and the regular expressions are modelled on all 256 code
      points.  [str.upper] is modelled on all of them but U+00B5 and U+00FF,
      whose capitals (U+039C, U+0178) are not native strings: the model
      leaves these two unchanged, and a statement that depends on the method
      line says so.
    - The decoded body text ([request.text]) is any Python [str]: a [ustr],
      a sequence of Unicode code points.  Reading it may raise.
    - A Python exception is a value of [exn]; a call that may raise returns a
      [result].  [try]/[except ValueError] is a match on the result.
    - A [dict] with string keys is a [gmap string string].
    - [bytes] are [list byte]. *)

From Stdlib Require Import Ascii String List ZArith NArith Lia Bool Strings.Byte.
From stdpp Require Import base option list gmap strings.

Local Open Scope string_scope.
Local Open Scope list_scope.

(** ** Exceptions and results *)

(** The [ValueError]s the module can raise, one constructor per message. *)
Inductive value_error : Type :=
  | Missing_auth_parameters            (* "Missing auth parameters" *)
  | Malformed_auth_parameters          (* "Malformed auth parameters" *)
  | Unescaped_quote                    (* "Unescaped quote in quoted-string" *)
  | Unpack (expected got : nat)        (* tuple unpacking of a wrong length *)
  | Unknown_scheme (scheme : string)   (* "Unknown scheme %r has no default port" *)
  | Bad_content_type (header : string).
      (* "Could not derive the compliant Content-Type value from header value %s" *)

(** ([UnicodeEncodeError] and [UnicodeDecodeError] are kinds of [ValueError]
    in Python; no [try] block of the module can see one raised inside it.) *)
Inductive exn : Type :=
  | ValueError (v : value_error)
  | KeyError (key : string)
  | IndexError
  | NameError (name : string)
  | UnicodeEncodeError
  | UnicodeDecodeError.

Inductive result (A : Type) : Type :=
  | Return (a : A)
  | Raise (e : exn).
Arguments Return {A} a.
Arguments Raise {A} e.

#[global] Instance result_ret : MRet result := fun A a => Return a.
#[global] Instance result_bind : MBind result := fun A B f m =>
  match m with
  | Return a => f a
  | Raise e => Raise e
  end.

Definition is_ValueError (e : exn) : bool :=
  match e with ValueError _ => true | _ => false end.

(** ** Python string primitives *)

Module Py.

(** [str.isspace] on one code point below 256 (Python 3): the ASCII white
    space and separators, NEL and the no-break space. *)
Definition is_space (c : ascii) : bool :=
  let n := nat_of_ascii c in
  (((9 <=? n) && (n <=? 13)) || ((28 <=? n) && (n <=? 32))
   || (n =? 133) || (n =? 160))%nat.

(** [c.lower()] for one code point below 256: the ASCII capitals and the
    Latin-1 capitals U+00C0-U+00DE (but the multiplication sign U+00D7) move
    up by 32. *)
Definition lower_char (c : ascii) : ascii :=
  let n := nat_of_ascii c in
  if (((65 <=? n) && (n <=? 90))
      || ((192 <=? n) && (n <=? 222) && negb (n =? 215)))%nat
  then ascii_of_nat (n + 32) else c.

(** [c.upper()] for one code point below 256: the ASCII small letters and
    the Latin-1 small letters U+00E0-U+00FE (but the division sign U+00F7)
    move down by 32, and the sharp s U+00DF becomes [SS].  The capitals of
    U+00B5 and U+00FF lie beyond U+00FF; the model keeps these two. *)
Definition upper_char (c : ascii) : string :=
  let n := nat_of_ascii c in
  if (((97 <=? n) && (n <=? 122))
      || ((224 <=? n) && (n <=? 254) && negb (n =? 247)))%nat
  then String (ascii_of_nat (n - 32)) EmptyString
  else if (n =? 223)%nat then "SS"
  else String c EmptyString.

Fixpoint map_chars (f : ascii -> ascii) (s : string) : string :=
  match s with
  | EmptyString => EmptyString
  | String c t => String (f c) (map_chars f t)
  end.

Fixpoint concat_map_chars (f : ascii -> string) (s : string) : string :=
  match s with
  | EmptyString => EmptyString
  | String c t => f c +:+ concat_map_chars f t
  end.

(** [s.upper()] and [s.lower()] *)
Definition upper : string -> string := concat_map_chars upper_char.
Definition lower : string -> string := map_chars lower_char.

(** The strings on which [upper] is Python's [str.upper]: those without
    U+00B5 and U+00FF. *)
Fixpoint upper_is_native (s : string) : bool :=
  match s with
  | EmptyString => true
  | String c t =>
      negb (nat_of_ascii c =? 181)%nat && negb (nat_of_ascii c =? 255)%nat
      && upper_is_native t
  end.

(** [s.lstrip()], [s.rstrip()], [s.strip()] *)
Fixpoint lstrip (s : string) : string :=
  match s with
  | String c t => if is_space c then lstrip t else s
  | EmptyString => EmptyString
  end.

Fixpoint rstrip (s : string) : string :=
  match s with
  | EmptyString => EmptyString
  | String c t =>
      match rstrip t with
      | EmptyString => if is_space c then EmptyString else String c EmptyString
      | t' => String c t'
      end
  end.

Definition strip (s : string) : string := rstrip (lstrip s).

(** [s.startswith(c)] for a one-character [c] *)
Definition startswith (c : ascii) (s : string) : bool :=
  match s with
  | String d _ => Ascii.eqb d c
  | EmptyString => false
  end.

(** [s[1:]], [s[:-1]] and [s[1:-1]] *)
Definition drop_first (s : string) : string :=
  match s with String _ t => t | EmptyString => EmptyString end.

Fixpoint drop_last (s : string) : string :=
  match s with
  | EmptyString => EmptyString
  | String c t =>
      match t with
      | EmptyString => EmptyString
      | String _ _ => String c (drop_last t)
      end
  end.

Definition slice_1_m1 (s : string) : string := drop_last (drop_first s).

(** [s.split(sep)] for a one-character separator: never empty. *)
Fixpoint split (sep : ascii) (s : string) : list string :=
  match s with
  | EmptyString => [EmptyString]
  | String c t =>
      if Ascii.eqb c sep then EmptyString :: split sep t
      else match split sep t with
           | h :: r => String c h :: r
           | [] => [String c EmptyString]
           end
  end.

(** [s.split(sep, 1)]: cut at the first separator, if any. *)
Fixpoint split1 (sep : ascii) (s : string) : list string :=
  match s with
  | EmptyString => [EmptyString]
  | String c t =>
      if Ascii.eqb c sep then [EmptyString; t]
      else match split1 sep t with
           | h :: r => String c h :: r
           | [] => [String c EmptyString]
           end
  end.

(** [s.rsplit(sep, 1)]: cut at the last separator, if any. *)
Fixpoint rsplit1 (sep : ascii) (s : string) : list string :=
  match s with
  | EmptyString => [EmptyString]
  | String c t =>
      match rsplit1 sep t with
      | [h; r] => [String c h; r]
      | _ => if Ascii.eqb c sep then [EmptyString; t]
             else [String c t]
      end
  end.

(** The first word of [s] and what follows it. *)
Fixpoint span_word (s : string) : string * string :=
  match s with
  | EmptyString => (EmptyString, EmptyString)
  | String c t =>
      if is_space c then (EmptyString, s)
      else let '(w, r) := span_word t in (String c w, r)
  end.

(** [s.split(None, 1)]: leading white space is skipped, the first word is
    cut off, the white space after it is skipped, and what remains (if
    anything) is the second item, trailing white space included. *)
Definition split_ws1 (s : string) : list string :=
  match lstrip s with
  | EmptyString => []
  | s1 =>
      let '(w, r) := span_word s1 in
      match lstrip r with
      | EmptyString => [w]
      | r' => [w; r']
      end
  end.

(** [sep.join(l)] *)
Fixpoint join (sep : string) (l : list string) : string :=
  match l with
  | [] => EmptyString
  | [x] => x
  | x :: r => x +:+ sep +:+ join sep r
  end.

(** [a, b = l]: unpacking into two names. *)
Definition unpack2 (l : list string) : result (string * string) :=
  match l with
  | [a; b] => Return (a, b)
  | _ => Raise (ValueError (Unpack 2 (length l)))
  end.

(** [s.encode("ascii")] *)
Fixpoint encode_ascii (s : string) : result (list byte) :=
  match s with
  | EmptyString => Return []
  | String c t =>
      if (nat_of_ascii c <? 128)%nat
      then bs ← encode_ascii t; Return (byte_of_ascii c :: bs)
      else Raise UnicodeEncodeError
  end.

End Py.

(** ** Regular expressions

    The three patterns of the module use character classes, concatenation,
    alternation, [*], [+] and the anchors [^] and [$].  A pattern is a term of
    [re]; matching is by backtracking over positions of the subject string, in
    the priority order of Python's [re] (left alternative first, [*] greedy),
    so that the first end position found is the one Python reports. *)

Module Re.

Inductive cls : Type :=
  | Lit (c : ascii)           (* the character itself *)
  | Range (lo hi : ascii)     (* lo-hi inside brackets *)
  | Space                     (* \s *)
  | Dot                       (* . : anything but a newline *)
  | NotLit (c : ascii)        (* [^c] : anything but c, newline included *)
  | Union (a b : cls).        (* two items inside one pair of brackets *)

Fixpoint cls_mem (k : cls) (c : ascii) : bool :=
  match k with
  | Lit d => Ascii.eqb c d
  | Range lo hi =>
      ((nat_of_ascii lo <=? nat_of_ascii c)
       && (nat_of_ascii c <=? nat_of_ascii hi))%nat
  | Space => Py.is_space c
  | Dot => negb (Ascii.eqb c "010"%char)
  | NotLit d => negb (Ascii.eqb c d)
  | Union a b => cls_mem a c || cls_mem b c
  end.

Inductive re : Type :=
  | Eps
  | Chr (k : cls)
  | Bol                       (* ^ *)
  | Eol                       (* $ *)
  | Cat (r1 r2 : re)
  | Alt (r1 r2 : re)
  | Star (r : re).

Definition Plus (r : re) : re := Cat r (Star r).

Fixpoint seq_of (l : list re) : re :=
  match l with
  | [] => Eps
  | [r] => r
  | r :: l' => Cat r (seq_of l')
  end.

(** Greedy iteration: every pass must consume at least one character, and
    the longer matches come first. *)
Fixpoint star_ends (step : nat -> list nat) (fuel : nat) (i : nat) : list nat :=
  match fuel with
  | O => [i]
  | S f =>
      flat_map (fun j => if (i <? j)%nat then star_ends step f j else [])
               (step i) ++ [i]
  end.

(** [$] holds at the end of the subject and just before a final newline. *)
Definition at_eol (w : string) (i : nat) : bool :=
  (i =? String.length w)%nat
  || ((S i =? String.length w)%nat
      && match String.get i w with
         | Some c => Ascii.eqb c "010"%char
         | None => false
         end).

(** [ends r w i]: the positions where a match of [r] that starts at
    position [i] of [w] can end, best first. *)
Fixpoint ends (r : re) (w : string) (i : nat) : list nat :=
  match r with
  | Eps => [i]
  | Chr k =>
      match String.get i w with
      | Some c => if cls_mem k c then [S i] else []
      | None => []
      end
  | Bol => if (i =? 0)%nat then [i] else []
  | Eol => if at_eol w i then [i] else []
  | Cat r1 r2 => flat_map (ends r2 w) (ends r1 w i)
  | Alt r1 r2 => ends r1 w i ++ ends r2 w i
  | Star r1 => star_ends (ends r1 w) (String.length w) i
  end.

Definition matches_at (r : re) (w : string) (i : nat) : bool :=
  match ends r w i with
  | [] => false
  | _ :: _ => true
  end.

(** The truth value of [r.match(w)]: a match that starts at position 0. *)
Definition match_ (r : re) (w : string) : bool := matches_at r w 0.

(** The truth value of [r.search(w)]: a match that starts anywhere. *)
Definition search (r : re) (w : string) : bool :=
  existsb (matches_at r w) (seq 0 (S (String.length w))).

(** [r.sub(f, w)]: the leftmost matches, none overlapping, are replaced by
    [f] of the matched text. *)
Fixpoint sub_from (r : re) (f : string -> string) (w : string)
    (fuel : nat) (i : nat) : string :=
  match fuel with
  | O => EmptyString
  | S fuel' =>
      if (String.length w <? i)%nat then EmptyString
      else
        match ends r w i with
        | j :: _ =>
            if (i <? j)%nat
            then f (substring i (j - i) w) +:+ sub_from r f w fuel' j
            else f EmptyString +:+ substring i 1 w
                 +:+ sub_from r f w fuel' (S i)
        | [] => substring i 1 w +:+ sub_from r f w fuel' (S i)
        end
  end.

Definition sub (r : re) (f : string -> string) (w : string) : string :=
  sub_from r f w (S (S (String.length w))) 0.

End Re.

(** ** The request object *)

(** A Python [str] in general: its Unicode code points. *)
Definition ustr : Type := list N.

(** The code points of a native string. *)
Fixpoint ustr_of (s : string) : ustr :=
  match s with
  | EmptyString => []
  | String c t => N_of_ascii c :: ustr_of t
  end.

(** [sep.join(l)] on [str]s in general *)
Fixpoint ujoin (sep : ustr) (l : list ustr) : ustr :=
  match l with
  | [] => []
  | [x] => x
  | x :: r => x ++ sep ++ ujoin sep r
  end.

(** The attributes of the WebOb request that the module reads.  [text] is a
    property that decodes the body each time it is read: it gives the decoded
    text or raises (a body that is not valid in its charset raises
    [UnicodeDecodeError]). *)
Record request : Type := {
  HTTP_AUTHORIZATION : option string;
      (* request.environ.get("HTTP_AUTHORIZATION") *)
  method : string;
  path_qs : string;
  host : string;
  scheme : string;
  text : result ustr;
  content_type : string
}.

(** ** Parsing the Authorization header *)

Definition dquote : ascii := "034"%char.
Definition backslash : ascii := "092"%char.
Definition newline : string := String "010"%char EmptyString.

(** [[a-zA-Z0-9_\-]] *)
Definition token_char : Re.cls :=
  Re.Union (Re.Range "a" "z")
    (Re.Union (Re.Range "A" "Z")
       (Re.Union (Re.Range "0" "9")
          (Re.Union (Re.Lit "_") (Re.Lit "-")))).

(** [^\s*([a-zA-Z0-9_\-]+)=(([a-zA-Z0-9_\-]+)|("")|(".*[^\\]"))\s*$] *)
Definition _AUTH_PARAM_RE : Re.re :=
  Re.seq_of
    [ Re.Bol; Re.Star (Re.Chr Re.Space);
      Re.Plus (Re.Chr token_char);
      Re.Chr (Re.Lit "=");
      Re.Alt (Re.Plus (Re.Chr token_char))
        (Re.Alt (Re.Cat (Re.Chr (Re.Lit dquote)) (Re.Chr (Re.Lit dquote)))
           (Re.seq_of [ Re.Chr (Re.Lit dquote); Re.Star (Re.Chr Re.Dot);
                        Re.Chr (Re.NotLit backslash);
                        Re.Chr (Re.Lit dquote) ]));
      Re.Star (Re.Chr Re.Space); Re.Eol ].

(** [(^")|([^\\]")] *)
Definition _UNESC_QUOTE_RE : Re.re :=
  Re.Alt (Re.Cat Re.Bol (Re.Chr (Re.Lit dquote)))
         (Re.Cat (Re.Chr (Re.NotLit backslash)) (Re.Chr (Re.Lit dquote))).

(** [\\.] *)
Definition _ESCAPED_CHAR : Re.re :=
  Re.Cat (Re.Chr (Re.Lit backslash)) (Re.Chr Re.Dot).

(** One pass of the loop over [kvpairs_str.split(",")] (lines 96-100). *)
Definition stitch_step (kvpairs : list string) (kvpair : string) : list string :=
  match last kvpairs with
  | None => kvpairs ++ [kvpair]
  | Some l =>
      if Re.match_ _AUTH_PARAM_RE l then kvpairs ++ [kvpair]
      else <[pred (length kvpairs) := l +:+ "," +:+ kvpair]> kvpairs
  end.

(** Lines 94-102: the parameter string is cut into key=value chunks. *)
Definition split_kvpairs (kvpairs_str : string) : result (list string) :=
  match kvpairs_str with
  | EmptyString => Return []
  | _ =>
      let kvpairs := fold_left stitch_step (Py.split "," kvpairs_str) [] in
      match last kvpairs with
      | None => Raise IndexError
      | Some l =>
          if Re.match_ _AUTH_PARAM_RE l then Return kvpairs
          else Raise (ValueError Malformed_auth_parameters)
      end
  end.

(** [m.group(0)[1]] *)
Definition second_char (m : string) : string := substring 1 1 m.

(** Lines 108-112: quotes and backslash escapes are removed. *)
Definition decode_value (value : string) : result string :=
  if Py.startswith dquote value then
    let value := Py.slice_1_m1 value in
    if Re.search _UNESC_QUOTE_RE value
    then Raise (ValueError Unescaped_quote)
    else Return (Re.sub _ESCAPED_CHAR second_char value)
  else Return value.

(** Lines 105-113: the loop that fills the dict. *)
Fixpoint fill_params (kvpairs : list string) (params : gmap string string)
    : result (gmap string string) :=
  match kvpairs with
  | [] => Return params
  | kvpair :: rest =>
      '(key, value) ← Py.unpack2 (Py.split1 "=" (Py.strip kvpair));
      value ← decode_value value;
      fill_params rest (<[key := value]> params)
  end.

(** The body of the [try] (lines 84-114). *)
Definition parse_authz_header_try (req : request) : result (gmap string string) :=
  match HTTP_AUTHORIZATION req with
  | None => Raise (ValueError Missing_auth_parameters)
  | Some authz =>
      '(scheme, kvpairs_str) ← Py.unpack2 (Py.split_ws1 authz);
      kvpairs ← split_kvpairs kvpairs_str;
      fill_params kvpairs {[ "scheme" := scheme ]}
  end.

(** [parse_authz_header(request, *default)].  The default may be any object;
    the call returns the parsed dict ([inl]) or the first default ([inr]). *)
Definition parse_authz_header {D : Type} (req : request) (default : list D)
    : result (gmap string string + D) :=
  match parse_authz_header_try req with
  | Return params => Return (inl params)
  | Raise (ValueError v) =>
      match default with
      | d :: _ => Return (inr d)
      | [] => Raise (ValueError v)
      end
  | Raise e => Raise e
  end.

(** ** The canonical strings *)

(** [d[key]] *)
Definition getitem (d : gmap string string) (key : string) : result string :=
  match d !! key with
  | Some v => Return v
  | None => Raise (KeyError key)
  end.

(** [d.get(key, "")] *)
Definition get_or_empty (d : gmap string string) (key : string) : string :=
  default EmptyString (d !! key).

(** Lines 154-155: the parameters in force. *)
Definition effective_params (req : request) (params : option (gmap string string))
    : result (gmap string string) :=
  match params with
  | Some p => Return p
  | None =>
      r ← parse_authz_header req [(∅ : gmap string string)];
      Return (match r with inl p => p | inr d => d end)
  end.

(** Lines 162-172: host and port. *)
Definition host_and_port (req : request) : result (string * string) :=
  match Py.unpack2 (Py.rsplit1 ":" (host req)) with
  | Return hp => Return hp
  | Raise (ValueError _) =>
      if String.eqb (scheme req) "http" then Return (host req, "80")
      else if String.eqb (scheme req) "https" then Return (host req, "443")
      else Raise (ValueError (Unknown_scheme (scheme req)))
  | Raise e => Raise e
  end.

Definition get_normalized_request_string (req : request)
    (params : option (gmap string string)) (server_hash : option string)
    : result string :=
  params ← effective_params req params;
  let bits := [] in
  let bits := bits ++ ["hawk.1.header"] in
  ts ← getitem params "ts";
  let bits := bits ++ [ts] in
  nonce ← getitem params "nonce";
  let bits := bits ++ [nonce] in
  let bits := bits ++ [Py.upper (method req)] in
  let bits := bits ++ [path_qs req] in
  '(host, port) ← host_and_port req;
  let bits := bits ++ [Py.lower host] in
  let bits := bits ++ [port] in
  let bits :=
    match server_hash with
    | None => bits ++ [get_or_empty params "hash"]
    | Some h => bits ++ [h]
    end in
  let bits := bits ++ [get_or_empty params "ext"] in
  let bits := bits ++ [EmptyString] in
  Return (Py.join newline bits).

(** [l[0]] *)
Definition item0 (l : list string) : result string :=
  match l with
  | x :: _ => Return x
  | [] => Raise IndexError
  end.

(** [None] is Python's [None].  [request.text] is read on line 195 and, when
    the text is not empty, again on line 207; both reads are outside the
    [try]. *)
Definition get_normalized_payload_string (req : request) : result (option ustr) :=
  text_195 ← text req;
  match text_195 with
  | [] => Return None
  | _ :: _ =>
      content_type ←
        match
          (first ← item0 (Py.split ";" (content_type req));
           Return (Py.lower (Py.strip first)))
        with
        | Raise (ValueError _) =>
            Raise (ValueError (Bad_content_type (content_type req)))
        | r => r
        end;
      let bits := [] in
      let bits := bits ++ [ustr_of "hawk.1.payload"] in
      let bits := bits ++ [ustr_of content_type] in
      text_207 ← text req;
      let bits := bits ++ [text_207] in
      let bits := bits ++ [[]] in
      Return (Some (ujoin (ustr_of newline) bits))
  end.

(** ** Timing-safe comparison *)

(** [ord(c)] *)
Definition ord (c : ascii) : Z := Z.of_nat (nat_of_ascii c).

(** [zip(string1, string2)] *)
Fixpoint zip_chars (s1 s2 : string) : list (ascii * ascii) :=
  match s1, s2 with
  | String a t1, String b t2 => (a, b) :: zip_chars t1 t2
  | _, _ => []
  end.

Definition strings_differ (string1 string2 : string) : bool :=
  if negb (String.length string1 =? String.length string2)%nat then true
  else
    let invalid_bits :=
      fold_left (fun acc '(a, b) => (acc + Z.lxor (ord a) (ord b))%Z)
                (zip_chars string1 string2) 0%Z in
    negb (invalid_bits =? 0)%Z.

(** The same function with every [ord(a) ^ ord(b)] counted: a computation
    threads the number of character comparisons made so far. *)
Module Counted.

Definition M (A : Type) : Type := nat -> A * nat.

Definition ret {A} (a : A) : M A := fun n => (a, n).
Definition bind {A B} (m : M A) (f : A -> M B) : M B :=
  fun n => let '(a, n') := m n in f a n'.
Definition run {A} (m : M A) : A * nat := m 0.

(** [ord(a) ^ ord(b)], one comparison *)
Definition xor_ord (a b : ascii) : M Z :=
  fun n => (Z.lxor (ord a) (ord b), S n).

Fixpoint loop (pairs : list (ascii * ascii)) (invalid_bits : Z) : M Z :=
  match pairs with
  | [] => ret invalid_bits
  | (a, b) :: rest =>
      bind (xor_ord a b) (fun x => loop rest (invalid_bits + x)%Z)
  end.

Definition strings_differ (string1 string2 : string) : M bool :=
  if negb (String.length string1 =? String.length string2)%nat then ret true
  else
    bind (loop (zip_chars string1 string2) 0%Z)
         (fun invalid_bits => ret (negb (invalid_bits =? 0)%Z)).

End Counted.

(** ** The signature *)

(** [base64.b64encode(data).decode("ascii")]: the standard alphabet, with
    [=] padding. *)
Module Base64.

Definition alphabet : string :=
  "ABCDEFGHIJKLMNOPQRSTUVWXYZabcdefghijklmnopqrstuvwxyz0123456789+/".

Definition sextet (n : N) : ascii :=
  default "="%char (String.get (N.to_nat (n mod 64)) alphabet).

Definition pad : ascii := "="%char.

Fixpoint encode (data : list byte) : string :=
  match data with
  | [] => EmptyString
  | [a] =>
      let n := (Byte.to_N a * 65536)%N in
      String (sextet (n / 262144)) (String (sextet (n / 4096))
        (String pad (String pad EmptyString)))
  | [a; b] =>
      let n := (Byte.to_N a * 65536 + Byte.to_N b * 256)%N in
      String (sextet (n / 262144)) (String (sextet (n / 4096))
        (String (sextet (n / 64)) (String pad EmptyString)))
  | a :: b :: c :: rest =>
      let n := (Byte.to_N a * 65536 + Byte.to_N b * 256 + Byte.to_N c)%N in
      String (sextet (n / 262144)) (String (sextet (n / 4096))
        (String (sextet (n / 64)) (String (sextet n) (encode rest))))
  end.

End Base64.

Definition b64encode (data : list byte) : string := Base64.encode data.

(** A hash constructor, as [hmac.new] uses it: the block size in bytes and
    the digest of a message. *)
Record hash_mod : Type := {
  block_size : nat;
  digest : list byte -> list byte
}.

Definition xor_byte (p : N) (b : byte) : byte :=
  default x00 (Byte.of_N (N.lxor (Byte.to_N b) p)).

(** [hmac.new(key, msg, hashmod).digest()] (RFC 2104, as Python's [hmac]
    does it): a block size below 16 is replaced by 64; a key longer than a
    block is hashed first, the key is padded with zeros to one block, and
    the digest is H((K xor opad) || H((K xor ipad) || msg)). *)
Definition hmac_digest (key msg : list byte) (hashmod : hash_mod) : list byte :=
  let blocksize :=
    if (block_size hashmod <? 16)%nat then 64%nat else block_size hashmod in
  let key :=
    if (blocksize <? length key)%nat then digest hashmod key
    else key in
  let key := key ++ replicate (blocksize - length key) x00 in
  digest hashmod
    (map (xor_byte 92) key ++ digest hashmod (map (xor_byte 54) key ++ msg)).

(** The [key] argument is a [str] or a [bytes] object. *)
Inductive key_arg : Type :=
  | KeyStr (s : string)
  | KeyBytes (b : list byte).

(** Lines 136-137: a [str] key is encoded, a [bytes] key is used as it is. *)
Definition key_bytes (key : key_arg) : result (list byte) :=
  match key with
  | KeyBytes b => Return b
  | KeyStr s => Py.encode_ascii s
  end.

(** The names that [utils.py] binds at module level: its imports (lines
    9-18), [bytes], [iteritems] and [b64encode] (lines 23-45), the three
    patterns and the functions. *)
Definition module_names : list string :=
  [ "sys"; "re"; "functools"; "base64"; "webob"; "requests";
    "bytes"; "iteritems"; "b64encode";
    "_AUTH_PARAM_RE"; "_UNESC_QUOTE_RE"; "_ESCAPED_CHAR";
    "parse_authz_header"; "get_signature"; "get_normalized_request_string";
    "get_normalized_payload_string"; "strings_differ";
    "normalize_request_object" ].

(** Reading a global name inside a function: a name that the module does
    not bind (and that is no builtin) raises [NameError]. *)
Definition global_name (name : string) : result unit :=
  if existsb (String.eqb name) module_names then Return tt
  else Raise (NameError name).

Section Signer.

(** What the name [ALGORITHMS] stands for in the package (a registry from
    algorithm names to hash constructors).  [utils.py] does not bind it, nor
    [utils], nor [hmac]: the body below reads each name where the source
    does. *)
Variable ALGORITHMS : gmap string hash_mod.

Definition get_signature (req : request) (key : key_arg)
    (params : option (gmap string string)) (algorithm : option string)
    : result string :=
  let algorithm :=
    match algorithm with
    | None => "sha256"
    | Some a => a
    end in
  _ ← global_name "utils";                                  (* line 132 *)
  sigstr ← get_normalized_request_string req params None;
  sigstr ← Py.encode_ascii sigstr;
  _ ← global_name "utils";                                  (* line 136 *)
  key ← key_bytes key;
  _ ← global_name "ALGORITHMS";                             (* line 138 *)
  hashmod ← match ALGORITHMS !! algorithm with
            | Some h => Return h
            | None => Raise (KeyError algorithm)
            end;
  _ ← global_name "utils";                                  (* line 139 *)
  _ ← global_name "hmac";
  Return (b64encode (hmac_digest key sigstr hashmod)).

End Signer.

(** * Properties *)

(** ** Facts about the string primitives *)

Fixpoint contains (c : ascii) (s : string) : bool :=
  match s with
  | EmptyString => false
  | String d t => Ascii.eqb d c || contains c t
  end.

(** The part of [s] before the first [c] (all of [s] if there is none). *)
Fixpoint before_first (c : ascii) (s : string) : string :=
  match s with
  | EmptyString => EmptyString
  | String d t => if Ascii.eqb d c then EmptyString else String d (before_first c t)
  end.

Lemma rsplit1_no_sep sep s :
  contains sep s = false -> Py.rsplit1 sep s = [s].
Proof.
  induction s as [|c t IH]; simpl; [reflexivity|].
  intros H. apply orb_false_iff in H as [Hc Ht].
  rewrite (IH Ht), Hc. reflexivity.
Qed.

Lemma append_nil_l s : EmptyString +:+ s = s.
Proof. reflexivity. Qed.

Lemma append_cons c s t : String c s +:+ t = String c (s +:+ t).
Proof. reflexivity. Qed.

Lemma append_empty_r s : s +:+ EmptyString = s.
Proof.
  induction s as [|c s IH]; [reflexivity|].
  rewrite append_cons, IH. reflexivity.
Qed.

Lemma rsplit1_last_sep sep h p :
  contains sep p = false -> Py.rsplit1 sep (h +:+ String sep p) = [h; p].
Proof.
  intros Hp. induction h as [|c h IH].
  - rewrite append_nil_l. simpl.
    rewrite (rsplit1_no_sep _ _ Hp), Ascii.eqb_refl. reflexivity.
  - rewrite append_cons. simpl. rewrite IH. reflexivity.
Qed.

Lemma split_head sep s :
  exists rest, Py.split sep s = before_first sep s :: rest.
Proof.
  induction s as [|c t [rest IH]]; simpl; [eauto|].
  destruct (Ascii.eqb c sep); [eauto|]. rewrite IH. eauto.
Qed.

(** ** The layout of the request string *)

(** The ten lines of the normalized request string, each closed by a
    newline. *)
Definition request_layout
    (ts nonce method path host port hash ext : string) : string :=
  "hawk.1.header" +:+ newline +:+ ts +:+ newline +:+ nonce +:+ newline
  +:+ method +:+ newline +:+ path +:+ newline +:+ host +:+ newline
  +:+ port +:+ newline +:+ hash +:+ newline +:+ ext +:+ newline.

(** The hash line: the server's hash when there is one, else the [hash]
    parameter, else nothing. *)
Definition hash_field (params : gmap string string) (server_hash : option string)
    : string :=
  match server_hash with
  | None => get_or_empty params "hash"
  | Some h => h
  end.

Lemma request_string_eq req params server_hash p :
  effective_params req params = Return p ->
  get_normalized_request_string req params server_hash =
    (ts ← getitem p "ts";
     nonce ← getitem p "nonce";
     '(h, port) ← host_and_port req;
     Return (request_layout ts nonce (Py.upper (method req)) (path_qs req)
               (Py.lower h) port (hash_field p server_hash)
               (get_or_empty p "ext"))).
Proof.
  intros Hp. unfold get_normalized_request_string. rewrite Hp. simpl.
  destruct (getitem p "ts") as [ts|]; simpl; [|reflexivity].
  destruct (getitem p "nonce") as [nonce|]; simpl; [|reflexivity].
  destruct (host_and_port req) as [[h port]|]; simpl; [|reflexivity].
  unfold request_layout, hash_field.
  destruct server_hash; simpl; reflexivity.
Qed.

Lemma host_and_port_explicit req h port :
  host req = h +:+ String ":" port -> contains ":" port = false ->
  host_and_port req = Return (h, port).
Proof.
  intros Hh Hp. unfold host_and_port.
  rewrite Hh, (rsplit1_last_sep _ _ _ Hp). reflexivity.
Qed.

Lemma host_and_port_default req :
  contains ":" (host req) = false ->
  host_and_port req =
    if String.eqb (scheme req) "http" then Return (host req, "80")
    else if String.eqb (scheme req) "https" then Return (host req, "443")
    else Raise (ValueError (Unknown_scheme (scheme req))).
Proof.
  intros Hh. unfold host_and_port.
  rewrite (rsplit1_no_sep _ _ Hh). reflexivity.
Qed.

(** ** Facts about matching *)

Lemma in_ends_cat r1 r2 w i j :
  In j (Re.ends (Re.Cat r1 r2) w i) <->
  exists k, In k (Re.ends r1 w i) /\ In j (Re.ends r2 w k).
Proof. simpl. apply in_flat_map. Qed.

Lemma in_ends_chr k w i j :
  In j (Re.ends (Re.Chr k) w i) ->
  exists c, String.get i w = Some c /\ Re.cls_mem k c = true /\ j = S i.
Proof.
  simpl. destruct (String.get i w) as [c|]; [|intros []].
  destruct (Re.cls_mem k c) eqn:Hk; [|intros []].
  intros [<-|[]]. eauto.
Qed.

Lemma ends_chr_hit k w i c :
  String.get i w = Some c -> Re.cls_mem k c = true ->
  In (S i) (Re.ends (Re.Chr k) w i).
Proof. intros Hg Hk. simpl. rewrite Hg, Hk. left. reflexivity. Qed.

Lemma matches_at_true r w i :
  Re.matches_at r w i = true <-> exists j, In j (Re.ends r w i).
Proof.
  unfold Re.matches_at. destruct (Re.ends r w i) as [|j l]; split.
  - discriminate.
  - intros [j []].
  - intros _. exists j. left. reflexivity.
  - reflexivity.
Qed.

Lemma get_contains i w c : String.get i w = Some c -> contains c w = true.
Proof.
  revert i. induction w as [|d t IH]; intros i; simpl; [discriminate|].
  destruct i as [|i].
  - intros [= ->]. rewrite Ascii.eqb_refl. reflexivity.
  - intros H. rewrite (IH _ H). apply orb_true_r.
Qed.

(** A chunk that the parameter grammar accepts. *)
Definition grammatical (kvpair : string) : Prop :=
  Re.match_ _AUTH_PARAM_RE kvpair = true.

Lemma grammatical_has_equals kvpair :
  grammatical kvpair -> contains "=" kvpair = true.
Proof.
  unfold grammatical, Re.match_. rewrite matches_at_true. intros [j Hj].
  unfold _AUTH_PARAM_RE, Re.seq_of in Hj.
  apply in_ends_cat in Hj as (k1 & _ & Hj).
  apply in_ends_cat in Hj as (k2 & _ & Hj).
  apply in_ends_cat in Hj as (k3 & _ & Hj).
  apply in_ends_cat in Hj as (k4 & Hk4 & _).
  apply in_ends_chr in Hk4 as (c & Hget & Hc & _).
  simpl in Hc. apply Ascii.eqb_eq in Hc as ->.
  exact (get_contains _ _ _ Hget).
Qed.

Lemma lstrip_contains c s :
  Py.is_space c = false -> contains c s = true -> contains c (Py.lstrip s) = true.
Proof.
  intros Hc. induction s as [|d t IH]; simpl; [discriminate|].
  destruct (Py.is_space d) eqn:Hd.
  - destruct (Ascii.eqb d c) eqn:E; simpl; [|exact IH].
    apply Ascii.eqb_eq in E as ->. congruence.
  - simpl. trivial.
Qed.

Lemma rstrip_contains c s :
  Py.is_space c = false -> contains c s = true -> contains c (Py.rstrip s) = true.
Proof.
  intros Hc. induction s as [|d t IH]; simpl; [discriminate|].
  destruct (Ascii.eqb d c) eqn:E; simpl.
  - intros _. apply Ascii.eqb_eq in E as ->.
    destruct (Py.rstrip t); [rewrite Hc|]; simpl; rewrite Ascii.eqb_refl; reflexivity.
  - intros Ht. specialize (IH Ht).
    destruct (Py.rstrip t); [discriminate|].
    simpl. rewrite E. exact IH.
Qed.

Lemma split1_contains sep s :
  contains sep s = true -> exists a b, Py.split1 sep s = [a; b].
Proof.
  induction s as [|c t IH]; simpl; [discriminate|].
  destruct (Ascii.eqb c sep); simpl; [eauto|].
  intros Ht. destruct (IH Ht) as (a & b & ->). eauto.
Qed.

Lemma grammatical_unpack kvpair :
  grammatical kvpair ->
  exists key value, Py.split1 "=" (Py.strip kvpair) = [key; value].
Proof.
  intros H. apply split1_contains. unfold Py.strip.
  apply rstrip_contains; [reflexivity|].
  apply lstrip_contains; [reflexivity|].
  exact (grammatical_has_equals _ H).
Qed.

(** ** The stitching loop *)

(** While the loop runs, every chunk but the last has passed the grammar. *)
Definition all_but_last_grammatical (kvpairs : list string) : Prop :=
  forall init l, kvpairs = init ++ [l] -> Forall grammatical init.

Lemma stitch_step_rejoins init l kvpair :
  Re.match_ _AUTH_PARAM_RE l = false ->
  stitch_step (init ++ [l]) kvpair = init ++ [l +:+ "," +:+ kvpair].
Proof.
  intros Hl. unfold stitch_step. rewrite last_snoc, Hl.
  rewrite insert_app_r_alt by (rewrite length_app; simpl; lia).
  replace (pred (length (init ++ [l])) - length init)%nat with 0%nat
    by (rewrite length_app; simpl; lia).
  reflexivity.
Qed.

Lemma stitch_step_appends init l kvpair :
  Re.match_ _AUTH_PARAM_RE l = true ->
  stitch_step (init ++ [l]) kvpair = (init ++ [l]) ++ [kvpair].
Proof. intros Hl. unfold stitch_step. rewrite last_snoc, Hl. reflexivity. Qed.

Lemma stitch_step_inv kvpairs kvpair :
  all_but_last_grammatical kvpairs ->
  all_but_last_grammatical (stitch_step kvpairs kvpair)
  /\ stitch_step kvpairs kvpair <> [].
Proof.
  intros Hinv. destruct (last kvpairs) as [l|] eqn:Hlast.
  - apply last_Some in Hlast as [init ->].
    destruct (Re.match_ _AUTH_PARAM_RE l) eqn:Hl.
    + rewrite (stitch_step_appends _ _ _ Hl). split.
      * intros init' l' Heq. apply app_inj_tail in Heq as [<- _].
        apply Forall_app. split; [exact (Hinv _ _ eq_refl)|].
        constructor; [exact Hl|constructor].
      * intros H. apply app_eq_nil in H as [_ H]. discriminate.
    + rewrite (stitch_step_rejoins _ _ _ Hl). split.
      * intros init' l' Heq. apply app_inj_tail in Heq as [<- _].
        exact (Hinv _ _ eq_refl).
      * intros H. apply app_eq_nil in H as [_ H]. discriminate.
  - apply last_None in Hlast as ->. unfold stitch_step. simpl. split.
    + intros init' l' Heq. change [kvpair] with ([] ++ [kvpair]) in Heq.
      apply app_inj_tail in Heq as [<- _]. constructor.
    + discriminate.
Qed.

Lemma stitch_inv chunks kvpairs :
  all_but_last_grammatical kvpairs ->
  all_but_last_grammatical (fold_left stitch_step chunks kvpairs)
  /\ (chunks <> [] -> fold_left stitch_step chunks kvpairs <> []).
Proof.
  revert kvpairs. induction chunks as [|c chunks IH]; intros kvpairs Hinv; simpl.
  - split; [exact Hinv|]. intros H. destruct (H eq_refl).
  - destruct (stitch_step_inv kvpairs c Hinv) as [Hinv' Hne].
    destruct (IH _ Hinv') as [H1 H2]. split; [exact H1|].
    intros _. destruct chunks as [|c' chunks']; [exact Hne|].
    apply H2. discriminate.
Qed.

Lemma split_nonempty sep s : Py.split sep s <> [].
Proof. destruct (split_head sep s) as [rest ->]. discriminate. Qed.

(** The outcome of lines 94-102: chunks that all pass the grammar, or the
    malformed-parameters error when the last one does not. *)
Lemma split_kvpairs_outcome kvpairs_str :
  (exists kvpairs, split_kvpairs kvpairs_str = Return kvpairs
                   /\ Forall grammatical kvpairs)
  \/ split_kvpairs kvpairs_str = Raise (ValueError Malformed_auth_parameters).
Proof.
  unfold split_kvpairs. destruct kvpairs_str as [|c t].
  - left. eexists. split; [reflexivity|constructor].
  - set (chunks := Py.split "," (String c t)).
    assert (Hinv : all_but_last_grammatical []).
    { intros init l H. destruct init; discriminate. }
    destruct (stitch_inv chunks [] Hinv) as [H1 H2].
    destruct (last (fold_left stitch_step chunks [])) as [l|] eqn:Hlast.
    + destruct (Re.match_ _AUTH_PARAM_RE l) eqn:Hl; [left|right; reflexivity].
      eexists. split; [reflexivity|].
      apply last_Some in Hlast as [init Hinit]. rewrite Hinit.
      apply Forall_app. split; [exact (H1 _ _ Hinit)|].
      constructor; [exact Hl|constructor].
    + apply last_None in Hlast. destruct (H2 (split_nonempty _ _) Hlast).
Qed.

(** ** Unescaped quotes *)

(** Position [i] of [s] holds a quote that no backslash precedes. *)
Definition unescaped_quote_at (s : string) (i : nat) : Prop :=
  String.get i s = Some dquote /\
  (i = 0%nat \/ exists c, String.get (pred i) s = Some c /\ c <> backslash).

Definition has_unescaped_quote (s : string) : Prop :=
  exists i, unescaped_quote_at s i.

Lemma get_lt i s c : String.get i s = Some c -> (i < String.length s)%nat.
Proof.
  revert i. induction s as [|d t IH]; intros i; simpl; [discriminate|].
  destruct i as [|i]; [lia|]. intros H. apply IH in H. lia.
Qed.

Lemma search_unescaped_quote s :
  Re.search _UNESC_QUOTE_RE s = true <-> has_unescaped_quote s.
Proof.
  unfold Re.search, _UNESC_QUOTE_RE. rewrite existsb_exists. split.
  - intros (x & _ & Hx). apply matches_at_true in Hx as [j Hj].
    change (In j (Re.ends (Re.Cat Re.Bol (Re.Chr (Re.Lit dquote))) s x
                  ++ Re.ends (Re.Cat (Re.Chr (Re.NotLit backslash))
                                     (Re.Chr (Re.Lit dquote))) s x)) in Hj.
    apply in_app_or in Hj as [Hj|Hj]; apply in_ends_cat in Hj as (k & Hk & Hj).
    + simpl in Hk. destruct (x =? 0)%nat eqn:E; [|destruct Hk].
      destruct Hk as [<-|[]]. apply Nat.eqb_eq in E as ->.
      apply in_ends_chr in Hj as (c & Hget & Hc & _).
      simpl in Hc. apply Ascii.eqb_eq in Hc as ->.
      exists 0%nat. split; [exact Hget|left; reflexivity].
    + apply in_ends_chr in Hk as (c & Hget & Hc & ->).
      apply in_ends_chr in Hj as (q & Hq & Hqc & _).
      simpl in Hc, Hqc. apply Ascii.eqb_eq in Hqc as ->.
      exists (S x). split; [exact Hq|right]. exists c. split; [exact Hget|].
      intros ->. rewrite Ascii.eqb_refl in Hc. discriminate.
  - intros (i & Hq & Hprev). destruct i as [|i].
    + exists 0%nat. split; [apply in_seq; lia|].
      apply matches_at_true. exists 1%nat.
      change (In 1%nat
                (Re.ends (Re.Cat Re.Bol (Re.Chr (Re.Lit dquote))) s 0
                 ++ Re.ends (Re.Cat (Re.Chr (Re.NotLit backslash))
                                    (Re.Chr (Re.Lit dquote))) s 0)).
      apply in_or_app. left. apply in_ends_cat. exists 0%nat.
      split; [left; reflexivity|].
      apply (ends_chr_hit _ _ _ _ Hq). reflexivity.
    + destruct Hprev as [Hprev|(c & Hc & Hne)]; [discriminate|].
      simpl in Hc. exists i. split.
      { apply in_seq. apply get_lt in Hc. lia. }
      apply matches_at_true. exists (S (S i)).
      change (In (S (S i))
                (Re.ends (Re.Cat Re.Bol (Re.Chr (Re.Lit dquote))) s i
                 ++ Re.ends (Re.Cat (Re.Chr (Re.NotLit backslash))
                                    (Re.Chr (Re.Lit dquote))) s i)).
      apply in_or_app. right. apply in_ends_cat. exists (S i). split.
      * apply (ends_chr_hit _ _ _ _ Hc). simpl.
        destruct (Ascii.eqb c backslash) eqn:E;
          [apply Ascii.eqb_eq in E; contradiction|reflexivity].
      * apply (ends_chr_hit _ _ _ _ Hq). reflexivity.
Qed.

(** A chunk whose quoted value holds an unescaped quote. *)
Definition bad_quoting (kvpair : string) : Prop :=
  exists key value,
    Py.split1 "=" (Py.strip kvpair) = [key; value]
    /\ Py.startswith dquote value = true
    /\ has_unescaped_quote (Py.slice_1_m1 value).

Lemma decode_value_outcome value :
  (Py.startswith dquote value = true
   /\ has_unescaped_quote (Py.slice_1_m1 value)
   /\ decode_value value = Raise (ValueError Unescaped_quote))
  \/ (~ (Py.startswith dquote value = true
         /\ has_unescaped_quote (Py.slice_1_m1 value))
      /\ exists v, decode_value value = Return v).
Proof.
  unfold decode_value. destruct (Py.startswith dquote value) eqn:Hs.
  - destruct (Re.search _UNESC_QUOTE_RE (Py.slice_1_m1 value)) eqn:Hq.
    + left. apply search_unescaped_quote in Hq. auto.
    + right. split; [|eauto]. intros [_ H].
      apply search_unescaped_quote in H. congruence.
  - right. split; [|eauto]. intros [H _]. discriminate.
Qed.

(** The outcome of lines 105-113 on chunks that pass the grammar. *)
Lemma fill_params_outcome kvpairs :
  Forall grammatical kvpairs -> forall params,
  (Exists bad_quoting kvpairs
   /\ fill_params kvpairs params = Raise (ValueError Unescaped_quote))
  \/ (~ Exists bad_quoting kvpairs
      /\ exists p, fill_params kvpairs params = Return p).
Proof.
  induction 1 as [|kvpair rest Hg _ IH]; intros params.
  - right. split; [|simpl; eauto]. intros H. inversion H.
  - destruct (grammatical_unpack _ Hg) as (key & value & Hkv).
    simpl. rewrite Hkv. simpl.
    destruct (decode_value_outcome value) as [(Hs & Hq & ->)|[Hok [v ->]]]; simpl.
    + left. split; [|reflexivity]. left. exists key, value. auto.
    + destruct (IH (<[key:=v]> params)) as [[Hex Hr]|[Hnex Hr]].
      * left. split; [right; exact Hex|exact Hr].
      * right. split; [|exact Hr]. intros Hex. inversion Hex as [? ? Hb|]; subst.
        -- destruct Hb as (key' & value' & Hkv' & Hs' & Hq').
           rewrite Hkv in Hkv'. injection Hkv' as <- <-. auto.
        -- contradiction.
Qed.

(** ** The outcome of a parse *)

Lemma parse_try_params req authz scheme kvpairs_str :
  HTTP_AUTHORIZATION req = Some authz ->
  Py.split_ws1 authz = [scheme; kvpairs_str] ->
  parse_authz_header_try req =
    (kvpairs ← split_kvpairs kvpairs_str;
     fill_params kvpairs {[ "scheme" := scheme ]}).
Proof.
  intros Ha Hs. unfold parse_authz_header_try. rewrite Ha, Hs. reflexivity.
Qed.

(** The body of the [try] returns a dict or raises a [ValueError]: nothing
    else escapes it. *)
Lemma parse_try_outcome req :
  (exists p, parse_authz_header_try req = Return p)
  \/ (exists v, parse_authz_header_try req = Raise (ValueError v)).
Proof.
  unfold parse_authz_header_try.
  destruct (HTTP_AUTHORIZATION req) as [authz|]; [|right; eauto].
  destruct (Py.split_ws1 authz) as [|scheme [|kvpairs_str [|x l]]];
    try (right; simpl; eauto; fail).
  simpl.
  destruct (split_kvpairs_outcome kvpairs_str) as [(kvpairs & -> & Hg) | ->];
    simpl; [|right; eauto].
  destruct (fill_params_outcome kvpairs Hg {[ "scheme" := scheme ]})
    as [[_ ->]|[_ [p ->]]]; [right|left]; eauto.
Qed.

Lemma parse_with_default {D} req (d : D) (ds : list D) :
  exists r, parse_authz_header req (d :: ds) = Return r.
Proof.
  unfold parse_authz_header.
  destruct (parse_try_outcome req) as [[p ->]|[v ->]]; eauto.
Qed.

Lemma effective_params_total req params :
  exists p, effective_params req params = Return p.
Proof.
  destruct params as [p|]; simpl; [eauto|].
  destruct (parse_with_default req (∅ : gmap string string) []) as [r ->].
  simpl. eauto.
Qed.

(** [quoted s] is [s] between two quote characters. *)
Definition quoted (s : string) : string :=
  String dquote (s +:+ String dquote EmptyString).

(** ** The claims about the parser *)

(** C3 (the code departs from the claim).  A header that holds a scheme name
    and nothing else does not parse: [authz.split(None, 1)] yields one item,
    unpacking it into [scheme, kvpairs_str] raises [ValueError], and the call
    raises it or, when a default is given, returns the default.  The dict
    with the sole [scheme] entry is never produced. *)
Theorem scheme_only_header_raises (D : Type) req authz scheme (d : D) ds :
  HTTP_AUTHORIZATION req = Some authz ->
  Py.split_ws1 authz = [scheme] ->
  parse_authz_header_try req = Raise (ValueError (Unpack 2 1))
  /\ parse_authz_header req (@nil D) = Raise (ValueError (Unpack 2 1))
  /\ parse_authz_header req (d :: ds) = Return (inr d).
Proof.
  intros Ha Hs.
  assert (H : parse_authz_header_try req = Raise (ValueError (Unpack 2 1))).
  { unfold parse_authz_header_try. rewrite Ha, Hs. reflexivity. }
  unfold parse_authz_header. rewrite H. auto.
Qed.

Definition request_with_header (authz : option string) : request :=
  {| HTTP_AUTHORIZATION := authz; method := "GET"; path_qs := "/";
     host := "example.com"; scheme := "http"; text := Return [];
     content_type := EmptyString |}.

Lemma scheme_only_header_raises_witness :
  parse_authz_header_try (request_with_header (Some "Hawk"))
    = Raise (ValueError (Unpack 2 1))
  /\ parse_authz_header (request_with_header (Some "Hawk")) (@nil unit)
    = Raise (ValueError (Unpack 2 1))
  /\ parse_authz_header (request_with_header (Some "Hawk")) [tt]
    = Return (inr tt).
Proof.
  apply (scheme_only_header_raises unit (request_with_header (Some "Hawk"))
           "Hawk" "Hawk" tt []); reflexivity.
Defined.

(** C5.  The header [Hawk a="x,y", b="z"] parses to the dict with [scheme],
    [a] and [b]: the comma inside the quotes does not cut the parameter.
    The chunks [a="x] and [y"] are joined again because the first one fails
    the grammar, and whenever the last chunk fails the grammar the next one
    is joined to it with a comma. *)
Theorem comma_inside_quoted_value (D : Type) req (default : list D) :
  HTTP_AUTHORIZATION req
    = Some ("Hawk a=" +:+ quoted "x,y" +:+ ", b=" +:+ quoted "z") ->
  parse_authz_header req default
    = Return (inl {[ "scheme" := "Hawk"; "a" := "x,y"; "b" := "z" ]})
  /\ fold_left stitch_step
       (Py.split "," ("a=" +:+ quoted "x,y" +:+ ", b=" +:+ quoted "z")) []
     = ["a=" +:+ quoted "x,y"; " b=" +:+ quoted "z"]
  /\ (forall init l kvpair,
        Re.match_ _AUTH_PARAM_RE l = false ->
        stitch_step (init ++ [l]) kvpair = init ++ [l +:+ "," +:+ kvpair]).
Proof.
  intros Ha. split; [|split].
  - unfold parse_authz_header, parse_authz_header_try. rewrite Ha.
    vm_compute. reflexivity.
  - vm_compute. reflexivity.
  - exact stitch_step_rejoins.
Qed.

Lemma comma_inside_quoted_value_witness :
  parse_authz_header
    (request_with_header
       (Some ("Hawk a=" +:+ quoted "x,y" +:+ ", b=" +:+ quoted "z")))
    (@nil unit)
  = Return (inl {[ "scheme" := "Hawk"; "a" := "x,y"; "b" := "z" ]}).
Proof.
  apply (comma_inside_quoted_value unit
           (request_with_header
              (Some ("Hawk a=" +:+ quoted "x,y" +:+ ", b=" +:+ quoted "z")))
           []);
    reflexivity.
Defined.

Lemma bad_quoting_raises req authz scheme kvpairs_str kvpairs :
  HTTP_AUTHORIZATION req = Some authz ->
  Py.split_ws1 authz = [scheme; kvpairs_str] ->
  split_kvpairs kvpairs_str = Return kvpairs ->
  Exists bad_quoting kvpairs ->
  parse_authz_header_try req = Raise (ValueError Unescaped_quote).
Proof.
  intros Ha Hs Hk Hbad. rewrite (parse_try_params _ _ _ _ Ha Hs), Hk. simpl.
  destruct (split_kvpairs_outcome kvpairs_str) as [(kvpairs' & Hk' & Hg)|Hk'];
    rewrite Hk in Hk'; [|discriminate]. injection Hk' as <-.
  destruct (fill_params_outcome kvpairs Hg {[ "scheme" := scheme ]})
    as [[_ ->]|[Hn _]]; [reflexivity|contradiction].
Qed.

(** C6.  In the parser, a backslash-escaped quote inside a quoted value is
    resolved ([k="a\"b"] gives the value [a"b]); [k=""] gives the key with
    the empty string; and whenever a chunk's quoted value, once stripped of
    its surrounding quotes, holds a quote that no backslash precedes (at
    position 0 or further on), the parse raises the
    unescaped-quote [ValueError]. *)
Theorem quoted_value_decoding (D : Type) req (default : list D) :
  (HTTP_AUTHORIZATION req
     = Some ("Hawk k="
             +:+ quoted ("a" +:+ String backslash (String dquote "b"))) ->
   parse_authz_header req default
     = Return (inl {[ "scheme" := "Hawk";
                      "k" := "a" +:+ String dquote "b" ]}))
  /\ (HTTP_AUTHORIZATION req = Some ("Hawk k=" +:+ quoted EmptyString) ->
      parse_authz_header req default
        = Return (inl {[ "scheme" := "Hawk"; "k" := EmptyString ]}))
  /\ (forall authz scheme kvpairs_str kvpairs,
        HTTP_AUTHORIZATION req = Some authz ->
        Py.split_ws1 authz = [scheme; kvpairs_str] ->
        split_kvpairs kvpairs_str = Return kvpairs ->
        Exists bad_quoting kvpairs ->
        parse_authz_header req (@nil D) = Raise (ValueError Unescaped_quote)).
Proof.
  split; [|split].
  - intros Ha. unfold parse_authz_header, parse_authz_header_try. rewrite Ha.
    vm_compute. reflexivity.
  - intros Ha. unfold parse_authz_header, parse_authz_header_try. rewrite Ha.
    vm_compute. reflexivity.
  - intros authz scheme kvpairs_str kvpairs Ha Hs Hk Hbad.
    unfold parse_authz_header.
    rewrite (bad_quoting_raises _ _ _ _ _ Ha Hs Hk Hbad). reflexivity.
Qed.

(** The three headers of the witness: an escaped quote, an interior quote
    and a quote at position 0 of the stripped value. *)
Definition escaped_quote_header : string :=
  "Hawk k=" +:+ quoted ("a" +:+ String backslash (String dquote "b")).
Definition interior_quote_header : string :=
  "Hawk k=" +:+ quoted ("a" +:+ String dquote "b").
Definition leading_quote_header : string :=
  "Hawk k=" +:+ quoted (String dquote "x").

Lemma quoted_value_decoding_witness :
  parse_authz_header (request_with_header (Some escaped_quote_header))
      (@nil unit)
    = Return (inl {[ "scheme" := "Hawk"; "k" := "a" +:+ String dquote "b" ]})
  /\ parse_authz_header
       (request_with_header (Some ("Hawk k=" +:+ quoted EmptyString)))
       (@nil unit)
    = Return (inl {[ "scheme" := "Hawk"; "k" := EmptyString ]})
  /\ parse_authz_header (request_with_header (Some interior_quote_header))
       (@nil unit)
    = Raise (ValueError Unescaped_quote)
  /\ parse_authz_header (request_with_header (Some leading_quote_header))
       (@nil unit)
    = Raise (ValueError Unescaped_quote).
Proof.
  split; [|split; [|split]].
  - apply (quoted_value_decoding unit
             (request_with_header (Some escaped_quote_header)) []);
      reflexivity.
  - apply (quoted_value_decoding unit
             (request_with_header (Some ("Hawk k=" +:+ quoted EmptyString))) []);
      reflexivity.
  - apply (proj2 (proj2 (quoted_value_decoding unit
             (request_with_header (Some interior_quote_header)) []))
             interior_quote_header "Hawk"
             ("k=" +:+ quoted ("a" +:+ String dquote "b"))
             ["k=" +:+ quoted ("a" +:+ String dquote "b")]);
      try reflexivity.
    left. exists "k", (quoted ("a" +:+ String dquote "b")).
    split; [reflexivity|]. split; [reflexivity|].
    exists 1%nat. split; [reflexivity|]. right. exists "a"%char.
    split; [reflexivity|discriminate].
  - apply (proj2 (proj2 (quoted_value_decoding unit
             (request_with_header (Some leading_quote_header)) []))
             leading_quote_header "Hawk"
             ("k=" +:+ quoted (String dquote "x"))
             ["k=" +:+ quoted (String dquote "x")]);
      try reflexivity.
    left. exists "k", (quoted (String dquote "x")).
    split; [reflexivity|]. split; [reflexivity|].
    exists 0%nat. split; [reflexivity|]. left. reflexivity.
Defined.

(** With two backslashes before the quote the first pair is one escaped
    backslash, and the value keeps a backslash. *)
Example doubled_backslash_value :
  parse_authz_header
    (request_with_header
       (Some ("Hawk k="
              +:+ quoted ("a" +:+ String backslash
                            (String backslash (String dquote "b"))))))
    (@nil unit)
  = Return (inl {[ "scheme" := "Hawk";
                   "k" := "a" +:+ String backslash (String dquote "b") ]}).
Proof. vm_compute. reflexivity. Qed.

(** C7.  The default of [parse_authz_header].  An absent header raises the
    missing-parameters error, a last chunk that fails the grammar raises the
    malformed-parameters error, an unescaped quote raises its own error; each
    of them is a [ValueError], which the call raises when no default is given
    and replaces by the first default when one is given.  No other exception
    leaves the call, and when the header parses the dict is returned whatever
    the default. *)
Theorem default_on_missing_or_malformed (D : Type) req (d : D) (ds : list D) :
  (HTTP_AUTHORIZATION req = None ->
   parse_authz_header req (@nil D)
     = Raise (ValueError Missing_auth_parameters)
   /\ parse_authz_header req (d :: ds) = Return (inr d))
  /\ (forall authz scheme kvpairs_str,
        HTTP_AUTHORIZATION req = Some authz ->
        Py.split_ws1 authz = [scheme; kvpairs_str] ->
        split_kvpairs kvpairs_str
          = Raise (ValueError Malformed_auth_parameters) ->
        parse_authz_header req (@nil D)
          = Raise (ValueError Malformed_auth_parameters)
        /\ parse_authz_header req (d :: ds) = Return (inr d))
  /\ (forall authz scheme kvpairs_str kvpairs,
        HTTP_AUTHORIZATION req = Some authz ->
        Py.split_ws1 authz = [scheme; kvpairs_str] ->
        split_kvpairs kvpairs_str = Return kvpairs ->
        Exists bad_quoting kvpairs ->
        parse_authz_header req (@nil D) = Raise (ValueError Unescaped_quote)
        /\ parse_authz_header req (d :: ds) = Return (inr d))
  /\ (forall e,
        parse_authz_header req (@nil D) = Raise e ->
        is_ValueError e = true
        /\ parse_authz_header req (d :: ds) = Return (inr d))
  /\ (forall params,
        parse_authz_header req (@nil D) = Return (inl params) ->
        parse_authz_header req (d :: ds) = Return (inl params))
  /\ ((exists params, parse_authz_header req (@nil D) = Return (inl params))
      \/ (exists v, parse_authz_header req (@nil D) = Raise (ValueError v))).
Proof.
  split; [|split; [|split; [|split; [|split]]]].
  - intros Ha. unfold parse_authz_header, parse_authz_header_try.
    rewrite Ha. auto.
  - intros authz scheme kvpairs_str Ha Hs Hk. unfold parse_authz_header.
    rewrite (parse_try_params _ _ _ _ Ha Hs), Hk. auto.
  - intros authz scheme kvpairs_str kvpairs Ha Hs Hk Hbad.
    unfold parse_authz_header.
    rewrite (bad_quoting_raises _ _ _ _ _ Ha Hs Hk Hbad). auto.
  - intros e. unfold parse_authz_header.
    destruct (parse_try_outcome req) as [[p ->]|[v ->]]; [discriminate|].
    intros [= <-]. auto.
  - intros params. unfold parse_authz_header.
    destruct (parse_authz_header_try req) as [p|[]];
      intros H; try discriminate. exact H.
  - unfold parse_authz_header.
    destruct (parse_try_outcome req) as [[p ->]|[v ->]]; eauto.
Qed.

Lemma default_on_missing_or_malformed_witness :
  (parse_authz_header (request_with_header None) (@nil unit)
     = Raise (ValueError Missing_auth_parameters)
   /\ parse_authz_header (request_with_header None) [tt] = Return (inr tt))
  /\ (parse_authz_header (request_with_header (Some "Broken raw-token"))
        (@nil unit)
      = Raise (ValueError Malformed_auth_parameters)
      /\ parse_authz_header (request_with_header (Some "Broken raw-token"))
           [tt]
         = Return (inr tt))
  /\ (parse_authz_header (request_with_header (Some interior_quote_header))
        (@nil unit)
      = Raise (ValueError Unescaped_quote)
      /\ parse_authz_header (request_with_header (Some interior_quote_header))
           [tt]
         = Return (inr tt))
  /\ parse_authz_header (request_with_header (Some "Hawk ts=1")) [tt]
     = Return (inl {[ "scheme" := "Hawk"; "ts" := "1" ]}).
Proof.
  split; [|split; [|split]].
  - apply (default_on_missing_or_malformed unit
             (request_with_header None) tt []);
      reflexivity.
  - apply (proj1 (proj2 (default_on_missing_or_malformed unit
             (request_with_header (Some "Broken raw-token")) tt []))
             "Broken raw-token" "Broken" "raw-token");
      reflexivity.
  - apply (proj1 (proj2 (proj2 (default_on_missing_or_malformed unit
             (request_with_header (Some interior_quote_header)) tt [])))
             interior_quote_header "Hawk"
             ("k=" +:+ quoted ("a" +:+ String dquote "b"))
             ["k=" +:+ quoted ("a" +:+ String dquote "b")]);
      try reflexivity.
    left. exists "k", (quoted ("a" +:+ String dquote "b")).
    split; [reflexivity|]. split; [reflexivity|].
    exists 1%nat. split; [reflexivity|]. right. exists "a"%char.
    split; [reflexivity|discriminate].
  - apply (proj1 (proj2 (proj2 (proj2 (proj2
             (default_on_missing_or_malformed unit
                (request_with_header (Some "Hawk ts=1")) tt [])))))).
    reflexivity.
Defined.

(** ** The claims about the request string *)

(** C1.  For the method GET, the path [/resource?a=1], the host
    [example.com] without a port and the scheme [http], with parameters that
    hold [ts] and [nonce] and neither [hash] nor [ext], and no server hash,
    the normalized request string is the tag, the timestamp, the nonce, the
    method, the path, the host, the port 80 and two empty fields, each
    followed by a newline. *)
Theorem canonical_request_string_example req (params : gmap string string) :
  method req = "GET" ->
  path_qs req = "/resource?a=1" ->
  host req = "example.com" ->
  scheme req = "http" ->
  params !! "ts" = Some "1353832234" ->
  params !! "nonce" = Some "j4h3g2" ->
  params !! "hash" = None ->
  params !! "ext" = None ->
  get_normalized_request_string req (Some params) None
  = Return ("hawk.1.header" +:+ newline +:+ "1353832234" +:+ newline
            +:+ "j4h3g2" +:+ newline +:+ "GET" +:+ newline
            +:+ "/resource?a=1" +:+ newline +:+ "example.com" +:+ newline
            +:+ "80" +:+ newline +:+ newline +:+ newline).
Proof.
  intros Hm Hp Hh Hs Hts Hn Hhash Hext.
  rewrite (request_string_eq req (Some params) None params eq_refl).
  unfold getitem, hash_field, get_or_empty.
  rewrite Hts, Hn, Hhash, Hext. simpl.
  rewrite host_and_port_default by (rewrite Hh; reflexivity).
  rewrite Hs, Hh, Hm, Hp. reflexivity.
Qed.

Definition example_request : request :=
  {| HTTP_AUTHORIZATION := None; method := "GET";
     path_qs := "/resource?a=1"; host := "example.com"; scheme := "http";
     text := Return []; content_type := EmptyString |}.

Definition example_params : gmap string string :=
  {[ "ts" := "1353832234"; "nonce" := "j4h3g2" ]}.

Lemma canonical_request_string_example_witness :
  get_normalized_request_string example_request (Some example_params) None
  = Return ("hawk.1.header" +:+ newline +:+ "1353832234" +:+ newline
            +:+ "j4h3g2" +:+ newline +:+ "GET" +:+ newline
            +:+ "/resource?a=1" +:+ newline +:+ "example.com" +:+ newline
            +:+ "80" +:+ newline +:+ newline +:+ newline).
Proof.
  apply (canonical_request_string_example example_request example_params);
    reflexivity.
Defined.

(** C4.  The port of the request string.  When the host ends in a colon and
    a port, the text after the last colon is the port line as it stands and
    the text before it, in lower case, is the host line.  When the host has
    no colon, the scheme [http] gives the port 80, [https] gives 443, and any
    other scheme makes the call raise: the unknown-scheme [ValueError] when
    [ts] and [nonce] are there.  (The whole string is given for a method
    whose upper case is a native string, see [Py.upper_is_native].) *)
Theorem port_derivation req params server_hash p :
  effective_params req params = Return p ->
  (forall h port,
     host req = h +:+ String ":" port -> contains ":" port = false ->
     host_and_port req = Return (h, port)
     /\ forall ts nonce,
          p !! "ts" = Some ts -> p !! "nonce" = Some nonce ->
          Py.upper_is_native (method req) = true ->
          get_normalized_request_string req params server_hash
          = Return (request_layout ts nonce (Py.upper (method req))
                      (path_qs req) (Py.lower h) port
                      (hash_field p server_hash) (get_or_empty p "ext")))
  /\ (contains ":" (host req) = false -> scheme req = "http" ->
      host_and_port req = Return (host req, "80")
      /\ forall ts nonce,
           p !! "ts" = Some ts -> p !! "nonce" = Some nonce ->
           Py.upper_is_native (method req) = true ->
           get_normalized_request_string req params server_hash
           = Return (request_layout ts nonce (Py.upper (method req))
                       (path_qs req) (Py.lower (host req)) "80"
                       (hash_field p server_hash) (get_or_empty p "ext")))
  /\ (contains ":" (host req) = false -> scheme req = "https" ->
      host_and_port req = Return (host req, "443")
      /\ forall ts nonce,
           p !! "ts" = Some ts -> p !! "nonce" = Some nonce ->
           Py.upper_is_native (method req) = true ->
           get_normalized_request_string req params server_hash
           = Return (request_layout ts nonce (Py.upper (method req))
                       (path_qs req) (Py.lower (host req)) "443"
                       (hash_field p server_hash) (get_or_empty p "ext")))
  /\ (contains ":" (host req) = false ->
      scheme req <> "http" -> scheme req <> "https" ->
      host_and_port req = Raise (ValueError (Unknown_scheme (scheme req)))
      /\ (exists e,
            get_normalized_request_string req params server_hash = Raise e)
      /\ (forall ts nonce,
            p !! "ts" = Some ts -> p !! "nonce" = Some nonce ->
            get_normalized_request_string req params server_hash
            = Raise (ValueError (Unknown_scheme (scheme req))))).
Proof.
  intros Hp. rewrite (request_string_eq _ _ server_hash _ Hp).
  unfold getitem. split; [|split; [|split]].
  - intros h port Hh Hport.
    rewrite (host_and_port_explicit _ _ _ Hh Hport).
    split; [reflexivity|]. intros ts nonce -> -> _. reflexivity.
  - intros Hh Hs. rewrite (host_and_port_default _ Hh), Hs.
    split; [reflexivity|]. intros ts nonce -> -> _. reflexivity.
  - intros Hh Hs. rewrite (host_and_port_default _ Hh), Hs.
    split; [reflexivity|]. intros ts nonce -> -> _. reflexivity.
  - intros Hh H1 H2. rewrite (host_and_port_default _ Hh).
    apply String.eqb_neq in H1, H2. rewrite H1, H2.
    split; [reflexivity|]. split.
    + destruct (p !! "ts"); simpl; [|eauto].
      destruct (p !! "nonce"); simpl; eauto.
    + intros ts nonce -> ->. reflexivity.
Qed.

Definition request_on (h s : string) : request :=
  {| HTTP_AUTHORIZATION := None; method := "get"; path_qs := "/resource?a=1";
     host := h; scheme := s; text := Return [];
     content_type := EmptyString |}.

(** The host [ÉXAMPLE.com], with a Latin-1 capital, and its lower case. *)
Definition latin1_host : string := String (ascii_of_nat 201) "XAMPLE.com".
Definition latin1_host_lower : string := String (ascii_of_nat 233) "xample.com".

Lemma port_derivation_witness :
  get_normalized_request_string (request_on "Example.COM:8000" "http")
      (Some example_params) None
    = Return (request_layout "1353832234" "j4h3g2" "GET" "/resource?a=1"
                "example.com" "8000" EmptyString EmptyString)
  /\ get_normalized_request_string (request_on latin1_host "http")
       (Some example_params) None
     = Return (request_layout "1353832234" "j4h3g2" "GET" "/resource?a=1"
                 latin1_host_lower "80" EmptyString EmptyString)
  /\ get_normalized_request_string (request_on "Example.COM" "https")
       (Some example_params) None
     = Return (request_layout "1353832234" "j4h3g2" "GET" "/resource?a=1"
                 "example.com" "443" EmptyString EmptyString)
  /\ get_normalized_request_string (request_on "Example.COM" "ftp")
       (Some example_params) None
     = Raise (ValueError (Unknown_scheme "ftp")).
Proof.
  split; [|split; [|split]].
  - destruct (proj1 (port_derivation (request_on "Example.COM:8000" "http")
                       (Some example_params) None example_params eq_refl)
                "Example.COM" "8000" eq_refl eq_refl) as [_ H].
    apply (H "1353832234" "j4h3g2"); reflexivity.
  - destruct (proj1 (proj2
                (port_derivation (request_on latin1_host "http")
                   (Some example_params) None example_params eq_refl))
                eq_refl eq_refl) as [_ H].
    apply (H "1353832234" "j4h3g2"); reflexivity.
  - destruct (proj1 (proj2 (proj2
                (port_derivation (request_on "Example.COM" "https")
                   (Some example_params) None example_params eq_refl)))
                eq_refl eq_refl) as [_ H].
    apply (H "1353832234" "j4h3g2"); reflexivity.
  - destruct (proj2 (proj2 (proj2
             (port_derivation (request_on "Example.COM" "ftp")
                (Some example_params) None example_params eq_refl))))
      as (_ & _ & H); [reflexivity|discriminate|discriminate|].
    apply (H "1353832234" "j4h3g2"); reflexivity.
Defined.

(** C10.  The request string needs [ts] and [nonce].  The parameters in
    force always exist (the dict passed in, or the parsed header, or the
    empty dict when the header is absent or malformed); when [ts] is not among
    them the call raises [KeyError] for [ts], and when [ts] is there and
    [nonce] is not it raises [KeyError] for [nonce].  With no parameters
    passed and no Authorization header, the parameters in force are the empty
    dict and the call raises [KeyError] for [ts], not the missing-parameters
    error. *)
Theorem missing_ts_or_nonce_raises_KeyError req params server_hash :
  (exists p, effective_params req params = Return p)
  /\ (forall p,
        effective_params req params = Return p -> p !! "ts" = None ->
        get_normalized_request_string req params server_hash
        = Raise (KeyError "ts"))
  /\ (forall p ts,
        effective_params req params = Return p ->
        p !! "ts" = Some ts -> p !! "nonce" = None ->
        get_normalized_request_string req params server_hash
        = Raise (KeyError "nonce"))
  /\ (HTTP_AUTHORIZATION req = None ->
      effective_params req None = Return ∅
      /\ get_normalized_request_string req None server_hash
         = Raise (KeyError "ts")).
Proof.
  split; [exact (effective_params_total req params)|]. split; [|split].
  - intros p Hp Hts. rewrite (request_string_eq _ _ server_hash _ Hp).
    unfold getitem. rewrite Hts. reflexivity.
  - intros p ts Hp Hts Hn. rewrite (request_string_eq _ _ server_hash _ Hp).
    unfold getitem. rewrite Hts, Hn. reflexivity.
  - intros Ha.
    assert (He : effective_params req None = Return ∅).
    { unfold effective_params, parse_authz_header, parse_authz_header_try.
      rewrite Ha. reflexivity. }
    split; [exact He|].
    rewrite (request_string_eq _ _ server_hash _ He). reflexivity.
Qed.

Lemma missing_ts_or_nonce_raises_KeyError_witness :
  get_normalized_request_string example_request
      (Some {[ "nonce" := "j4h3g2" ]}) None
    = Raise (KeyError "ts")
  /\ get_normalized_request_string example_request
       (Some {[ "ts" := "1353832234" ]}) None
     = Raise (KeyError "nonce")
  /\ get_normalized_request_string example_request None None
     = Raise (KeyError "ts").
Proof.
  split; [|split].
  - apply (proj1 (proj2 (missing_ts_or_nonce_raises_KeyError example_request
                           (Some {[ "nonce" := "j4h3g2" ]}) None))
             {[ "nonce" := "j4h3g2" ]});
      reflexivity.
  - apply (proj1 (proj2 (proj2
             (missing_ts_or_nonce_raises_KeyError example_request
                (Some {[ "ts" := "1353832234" ]}) None)))
             {[ "ts" := "1353832234" ]} "1353832234");
      reflexivity.
  - apply (proj2 (proj2 (proj2
             (missing_ts_or_nonce_raises_KeyError example_request None None)))).
    reflexivity.
Defined.

(** ** The payload string *)

(** C8.  An empty body text gives [None] (no string at all); a body text
    that is not empty gives the tag line, then the content type cut at its
    first semicolon, stripped and in lower case, then the body text, each
    followed by a newline. *)
Theorem payload_string req :
  (text req = Return [] -> get_normalized_payload_string req = Return None)
  /\ (forall body,
        text req = Return body -> body <> [] ->
        get_normalized_payload_string req
        = Return (Some (ustr_of "hawk.1.payload" ++ ustr_of newline
                        ++ ustr_of (Py.lower (Py.strip
                                      (before_first ";" (content_type req))))
                        ++ ustr_of newline ++ body ++ ustr_of newline))).
Proof.
  unfold get_normalized_payload_string. split.
  - intros ->. reflexivity.
  - intros body -> Hne. destruct body as [|c t]; [contradiction|].
    destruct (split_head ";" (content_type req)) as [rest ->]. reflexivity.
Qed.

Definition request_with_body (ct : string) (body : result ustr) : request :=
  {| HTTP_AUTHORIZATION := None; method := "POST"; path_qs := "/";
     host := "example.com"; scheme := "http"; text := body;
     content_type := ct |}.

(** The content type [ TEXT/PLÄIN ; charset=utf-8], with a Latin-1 capital,
    and the body [5 €], with a code point beyond U+00FF. *)
Definition latin1_content_type : string :=
  " TEXT/PL" +:+ String (ascii_of_nat 196) "IN ; charset=utf-8".
Definition euro_body : ustr := [53; 32; 8364]%N.

Lemma payload_string_witness :
  get_normalized_payload_string
      (request_with_body "text/plain" (Return []))
    = Return None
  /\ get_normalized_payload_string
       (request_with_body latin1_content_type (Return euro_body))
     = Return (Some (ustr_of "hawk.1.payload" ++ [10]
                     ++ ustr_of ("text/pl" +:+ String (ascii_of_nat 228) "in")
                     ++ [10; 53; 32; 8364; 10])%N).
Proof.
  split.
  - apply (proj1 (payload_string (request_with_body "text/plain" (Return [])))).
    reflexivity.
  - apply (proj2 (payload_string
                    (request_with_body latin1_content_type (Return euro_body)))
             euro_body); [reflexivity|discriminate].
Defined.

(** ** The comparison *)

(** The sum of [ord(a) ^ ord(b)] over the pairs. *)
Fixpoint xor_sum (pairs : list (ascii * ascii)) : Z :=
  match pairs with
  | [] => 0
  | (a, b) :: rest => Z.lxor (ord a) (ord b) + xor_sum rest
  end.

Lemma ord_nonneg c : (0 <= ord c)%Z.
Proof. unfold ord. lia. Qed.

Lemma ord_inj a b : ord a = ord b -> a = b.
Proof.
  unfold ord. intros H. apply Nat2Z.inj in H.
  rewrite <- (ascii_nat_embedding a), <- (ascii_nat_embedding b), H.
  reflexivity.
Qed.

Lemma xor_ord_nonneg a b : (0 <= Z.lxor (ord a) (ord b))%Z.
Proof.
  apply Z.lxor_nonneg. split; intros _; apply ord_nonneg.
Qed.

Lemma xor_sum_nonneg pairs : (0 <= xor_sum pairs)%Z.
Proof.
  induction pairs as [|[a b] rest IH]; simpl; [lia|].
  pose proof (xor_ord_nonneg a b). lia.
Qed.

Lemma fold_xor_sum pairs acc :
  fold_left (fun acc '(a, b) => (acc + Z.lxor (ord a) (ord b))%Z) pairs acc
  = (acc + xor_sum pairs)%Z.
Proof.
  revert acc. induction pairs as [|[a b] rest IH]; intros acc; simpl.
  - lia.
  - rewrite IH. lia.
Qed.

Lemma loop_counts pairs acc n :
  Counted.loop pairs acc n = ((acc + xor_sum pairs)%Z, (n + length pairs)%nat).
Proof.
  revert acc n. induction pairs as [|[a b] rest IH]; intros acc n; simpl.
  - unfold Counted.ret. f_equal; lia.
  - unfold Counted.bind, Counted.xor_ord. rewrite IH. f_equal; lia.
Qed.

Lemma zip_chars_length s1 s2 :
  String.length s1 = String.length s2 ->
  length (zip_chars s1 s2) = String.length s1.
Proof.
  revert s2. induction s1 as [|a t1 IH]; intros [|b t2]; simpl;
    try discriminate; [reflexivity|].
  intros [= H]. rewrite (IH _ H). reflexivity.
Qed.

Lemma xor_sum_zero s1 s2 :
  String.length s1 = String.length s2 ->
  xor_sum (zip_chars s1 s2) = 0%Z <-> s1 = s2.
Proof.
  revert s2. induction s1 as [|a t1 IH]; intros [|b t2]; simpl;
    try discriminate; [tauto|].
  intros [= H]. specialize (IH _ H).
  pose proof (xor_ord_nonneg a b). pose proof (xor_sum_nonneg (zip_chars t1 t2)).
  split.
  - intros Hsum.
    assert (Hx : Z.lxor (ord a) (ord b) = 0%Z) by lia.
    assert (Hr : xor_sum (zip_chars t1 t2) = 0%Z) by lia.
    apply Z.lxor_eq in Hx. apply ord_inj in Hx as ->.
    apply IH in Hr as ->. reflexivity.
  - intros [= -> ->]. rewrite Z.lxor_nilpotent.
    rewrite (proj2 IH eq_refl). reflexivity.
Qed.

(** C9.  [strings_differ] answers [True] without any character comparison
    when the lengths differ.  On inputs of one length it makes one comparison
    per position, as many as the common length whatever the contents; the
    accumulator is the sum of the [ord(a) ^ ord(b)], and the answer is whether
    it is not zero, which holds exactly when the strings differ.  The counted
    version computes the same answer as the plain one. *)
Theorem constant_time_comparison string1 string2 :
  (String.length string1 <> String.length string2 ->
   Counted.run (Counted.strings_differ string1 string2) = (true, 0%nat))
  /\ (String.length string1 = String.length string2 ->
      Counted.run (Counted.strings_differ string1 string2)
      = (negb (xor_sum (zip_chars string1 string2) =? 0)%Z,
         String.length string1))
  /\ fst (Counted.run (Counted.strings_differ string1 string2))
     = strings_differ string1 string2
  /\ (strings_differ string1 string2 = true <-> string1 <> string2).
Proof.
  unfold Counted.run, Counted.strings_differ, strings_differ.
  destruct (String.length string1 =? String.length string2)%nat eqn:E; simpl.
  - apply Nat.eqb_eq in E. unfold Counted.bind. rewrite loop_counts.
    rewrite fold_xor_sum, (zip_chars_length _ _ E). simpl.
    split; [intros H; contradiction|]. split; [reflexivity|].
    split; [reflexivity|].
    rewrite negb_true_iff, Z.eqb_neq.
    pose proof (xor_sum_zero _ _ E). tauto.
  - apply Nat.eqb_neq in E. unfold Counted.ret.
    split; [reflexivity|]. split; [intros H; contradiction|].
    split; [reflexivity|].
    split; [|reflexivity]. intros _ ->. apply E. reflexivity.
Qed.

Lemma constant_time_comparison_witness :
  Counted.run (Counted.strings_differ "ab" "abc") = (true, 0%nat)
  /\ Counted.run (Counted.strings_differ "abc" "abd") = (true, 3%nat)
  /\ Counted.run (Counted.strings_differ "xbc" "abc") = (true, 3%nat)
  /\ Counted.run (Counted.strings_differ "abc" "abc") = (false, 3%nat).
Proof.
  split; [|split; [|split]].
  - apply (proj1 (constant_time_comparison "ab" "abc")). discriminate.
  - apply (proj1 (proj2 (constant_time_comparison "abc" "abd"))). reflexivity.
  - apply (proj1 (proj2 (constant_time_comparison "xbc" "abc"))). reflexivity.
  - apply (proj1 (proj2 (constant_time_comparison "abc" "abc"))). reflexivity.
Defined.

(** ** The signature *)

(** C2 (the code departs from the claim).  [get_signature] is written to
    return the base64 text of the HMAC digest, but [utils.py] binds none of
    the names [utils], [hmac] and [ALGORITHMS] that its body reads: every
    call raises [NameError] for [utils] on line 132, before the request
    string is built, whatever the request, the key, the parameters, the
    algorithm and the registry. *)
Theorem get_signature_raises_NameError
    (ALGORITHMS : gmap string hash_mod) req key params algorithm :
  get_signature ALGORITHMS req key params algorithm = Raise (NameError "utils")
  /\ global_name "utils" = Raise (NameError "utils")
  /\ global_name "hmac" = Raise (NameError "hmac")
  /\ global_name "ALGORITHMS" = Raise (NameError "ALGORITHMS").
Proof. repeat split; reflexivity. Qed.

(** * Further properties of the module *)

(** ** Joining and splitting *)

Lemma append_assoc (a b c : string) : (a +:+ b) +:+ c = a +:+ b +:+ c.
Proof.
  induction a as [|x a IH]; [reflexivity|].
  rewrite !append_cons, IH. reflexivity.
Qed.

Lemma join_cons sep x y l :
  Py.join sep (x :: y :: l) = x +:+ sep +:+ Py.join sep (y :: l).
Proof. reflexivity. Qed.

Lemma join_split c s : Py.join (String c EmptyString) (Py.split c s) = s.
Proof.
  induction s as [|d t IH]; [reflexivity|]. simpl.
  destruct (Py.split c t) as [|h r] eqn:Hs; [destruct (split_nonempty _ _ Hs)|].
  destruct (Ascii.eqb d c) eqn:E.
  - apply Ascii.eqb_eq in E as ->. rewrite join_cons, IH. reflexivity.
  - destruct r as [|y r].
    + simpl in *. congruence.
    + rewrite join_cons in *. rewrite append_cons, IH. reflexivity.
Qed.

Lemma join_rejoin sep init l kv rest :
  Py.join sep (init ++ (l +:+ sep +:+ kv) :: rest)
  = Py.join sep (init ++ l :: kv :: rest).
Proof.
  induction init as [|x init IH].
  - simpl app. destruct rest as [|r rest]; [reflexivity|].
    rewrite !join_cons, !append_assoc. reflexivity.
  - destruct init as [|y init].
    + simpl app in *. rewrite !join_cons, IH. reflexivity.
    + simpl app in *. rewrite !join_cons, IH. reflexivity.
Qed.

Lemma stitch_keeps_text chunks : forall init l,
  Py.join "," (fold_left stitch_step chunks (init ++ [l]))
  = Py.join "," ((init ++ [l]) ++ chunks).
Proof.
  induction chunks as [|c chunks IH]; intros init l; simpl.
  - rewrite app_nil_r. reflexivity.
  - destruct (Re.match_ _AUTH_PARAM_RE l) eqn:Hl.
    + rewrite (stitch_step_appends _ _ _ Hl), IH, <- !app_assoc. reflexivity.
    + rewrite (stitch_step_rejoins _ _ _ Hl), IH, <- !app_assoc. simpl app.
      apply join_rejoin.
Qed.

Lemma split_kvpairs_join kvpairs_str kvpairs :
  split_kvpairs kvpairs_str = Return kvpairs ->
  Py.join "," kvpairs = kvpairs_str.
Proof.
  unfold split_kvpairs. destruct kvpairs_str as [|c t]; [intros [= <-]; reflexivity|].
  set (s := String c t).
  destruct (Py.split "," s) as [|c0 chunks] eqn:Hs;
    [destruct (split_nonempty _ _ Hs)|].
  assert (Hj : Py.join "," (fold_left stitch_step (c0 :: chunks) []) = s).
  { simpl. change (stitch_step [] c0) with ([] ++ [c0]).
    rewrite stitch_keeps_text. simpl app. rewrite <- Hs. apply join_split. }
  destruct (last (fold_left stitch_step (c0 :: chunks) [])) as [l|];
    [|discriminate].
  destruct (Re.match_ _AUTH_PARAM_RE l); [|discriminate].
  intros [= <-]. exact Hj.
Qed.

(** X1.  The stitching loop only regroups the comma-separated pieces: the
    chunks it produces, joined by commas again, are the parameter string. *)
Theorem stitching_round_trip kvpairs_str kvpairs :
  split_kvpairs kvpairs_str = Return kvpairs ->
  Py.join "," kvpairs = kvpairs_str.
Proof. exact (split_kvpairs_join kvpairs_str kvpairs). Qed.

Lemma stitching_round_trip_witness :
  Py.join ","
    ["a=" +:+ quoted "x,y"; " b=" +:+ quoted "z"]
  = "a=" +:+ quoted "x,y" +:+ ", b=" +:+ quoted "z".
Proof.
  apply (stitching_round_trip
           ("a=" +:+ quoted "x,y" +:+ ", b=" +:+ quoted "z")
           ["a=" +:+ quoted "x,y"; " b=" +:+ quoted "z"]).
  vm_compute. reflexivity.
Defined.

(** X2.  The chunking step has two outcomes only: the malformed-parameters
    [ValueError], or a list of chunks every one of which passes the parameter
    grammar and holds an equals sign (so that the later unpacking of
    [split("=", 1)] cannot fail).  It never raises [IndexError]. *)
Theorem chunks_pass_the_grammar kvpairs_str :
  split_kvpairs kvpairs_str = Raise (ValueError Malformed_auth_parameters)
  \/ exists kvpairs,
       split_kvpairs kvpairs_str = Return kvpairs
       /\ Forall (fun kvpair =>
                    Re.match_ _AUTH_PARAM_RE kvpair = true
                    /\ exists key value,
                         Py.split1 "=" (Py.strip kvpair) = [key; value])
                 kvpairs.
Proof.
  destruct (split_kvpairs_outcome kvpairs_str) as [(kvpairs & Hk & Hg)|H];
    [right|left; exact H].
  exists kvpairs. split; [exact Hk|]. clear Hk.
  induction Hg as [|kv l Hkv _ IH]; constructor; [|exact IH].
  split; [exact Hkv|exact (grammatical_unpack _ Hkv)].
Qed.

(** X3.  An Authorization header that is empty or all white space has no
    scheme: the unpacking of the empty list raises [ValueError], which the
    call raises or replaces by the default. *)
Theorem blank_header_raises (D : Type) req authz (d : D) ds :
  HTTP_AUTHORIZATION req = Some authz ->
  Py.lstrip authz = EmptyString ->
  parse_authz_header req (@nil D) = Raise (ValueError (Unpack 2 0))
  /\ parse_authz_header req (d :: ds) = Return (inr d).
Proof.
  intros Ha Hs. unfold parse_authz_header, parse_authz_header_try.
  rewrite Ha. unfold Py.split_ws1. rewrite Hs. auto.
Qed.

Lemma blank_header_raises_witness :
  parse_authz_header (request_with_header (Some "   ")) (@nil unit)
    = Raise (ValueError (Unpack 2 0))
  /\ parse_authz_header (request_with_header (Some "   ")) [tt]
    = Return (inr tt).
Proof.
  apply (blank_header_raises unit (request_with_header (Some "   "))
           "   " tt []); reflexivity.
Defined.

(** ** The entries of the parsed dict *)

(** What one pass of the loop of lines 105-113 stores: the key and the
    decoded value of a chunk. *)
Definition chunk_entry (kvpair : string) : result (string * string) :=
  '(key, value) ← Py.unpack2 (Py.split1 "=" (Py.strip kvpair));
  value ← decode_value value;
  Return (key, value).

Lemma fill_params_cons kvpair rest params p :
  fill_params (kvpair :: rest) params = Return p ->
  exists key value,
    chunk_entry kvpair = Return (key, value)
    /\ fill_params rest (<[key := value]> params) = Return p.
Proof.
  simpl. unfold chunk_entry.
  destruct (Py.unpack2 (Py.split1 "=" (Py.strip kvpair))) as [[key value]|];
    simpl; [|discriminate].
  destruct (decode_value value) as [v|]; simpl; [|discriminate].
  intros H. exists key, v. auto.
Qed.

Lemma fill_params_origin kvpairs : forall params p k v,
  fill_params kvpairs params = Return p ->
  p !! k = Some v ->
  params !! k = Some v
  \/ exists kvpair, In kvpair kvpairs /\ chunk_entry kvpair = Return (k, v).
Proof.
  induction kvpairs as [|kvpair rest IH]; intros params p k v Hf Hl.
  - injection Hf as <-. left. exact Hl.
  - apply fill_params_cons in Hf as (key & value & He & Hf).
    destruct (IH _ _ _ _ Hf Hl) as [H|(kv & Hin & Hkv)].
    + destruct (decide (key = k)) as [->|Hne].
      * rewrite lookup_insert_eq in H. injection H as ->.
        right. exists kvpair. split; [left; reflexivity|exact He].
      * rewrite lookup_insert_ne in H by exact Hne. left. exact H.
    + right. exists kv. split; [right; exact Hin|exact Hkv].
Qed.

Lemma fill_params_untouched kvpairs : forall params p k,
  fill_params kvpairs params = Return p ->
  (forall kvpair v, In kvpair kvpairs -> chunk_entry kvpair <> Return (k, v)) ->
  p !! k = params !! k.
Proof.
  induction kvpairs as [|kvpair rest IH]; intros params p k Hf Hno.
  - injection Hf as <-. reflexivity.
  - apply fill_params_cons in Hf as (key & value & He & Hf).
    rewrite (IH _ _ k Hf) by (intros kv v Hin; apply Hno; right; exact Hin).
    apply lookup_insert_ne. intros ->.
    exact (Hno kvpair value (or_introl eq_refl) He).
Qed.

Lemma fill_params_keeps_keys kvpairs : forall params p k,
  fill_params kvpairs params = Return p ->
  is_Some (params !! k) -> is_Some (p !! k).
Proof.
  induction kvpairs as [|kvpair rest IH]; intros params p k Hf Hk.
  - injection Hf as <-. exact Hk.
  - apply fill_params_cons in Hf as (key & value & _ & Hf).
    apply (IH _ _ _ Hf). destruct (decide (key = k)) as [->|Hne].
    + rewrite lookup_insert_eq. eauto.
    + rewrite lookup_insert_ne by exact Hne. exact Hk.
Qed.

Lemma fill_params_last_wins before : forall kvpair after params p k v,
  fill_params (before ++ kvpair :: after) params = Return p ->
  chunk_entry kvpair = Return (k, v) ->
  (forall kv v', In kv after -> chunk_entry kv <> Return (k, v')) ->
  p !! k = Some v.
Proof.
  induction before as [|b before IH]; intros kvpair after params p k v Hf He Hno.
  - simpl app in Hf. apply fill_params_cons in Hf as (key & value & He' & Hf).
    rewrite He in He'. injection He' as <- <-.
    rewrite (fill_params_untouched _ _ _ _ Hf Hno). apply lookup_insert_eq.
  - simpl app in Hf. apply fill_params_cons in Hf as (key & value & _ & Hf).
    exact (IH _ _ _ _ _ _ Hf He Hno).
Qed.

Lemma parse_success req authz scheme kvpairs_str kvpairs (p : gmap string string) :
  HTTP_AUTHORIZATION req = Some authz ->
  Py.split_ws1 authz = [scheme; kvpairs_str] ->
  split_kvpairs kvpairs_str = Return kvpairs ->
  parse_authz_header_try req = Return p ->
  fill_params kvpairs {[ "scheme" := scheme ]} = Return p.
Proof.
  intros Ha Hs Hk. rewrite (parse_try_params _ _ _ _ Ha Hs), Hk. simpl. trivial.
Qed.

(** X4.  Every entry of a parsed dict comes from the header: it is the
    [scheme] entry with the scheme name, or the key and decoded value of one
    of the chunks.  The dict always has a [scheme] entry. *)
Theorem parsed_entries_come_from_header
    req authz scheme kvpairs_str kvpairs (p : gmap string string) :
  HTTP_AUTHORIZATION req = Some authz ->
  Py.split_ws1 authz = [scheme; kvpairs_str] ->
  split_kvpairs kvpairs_str = Return kvpairs ->
  parse_authz_header_try req = Return p ->
  is_Some (p !! "scheme")
  /\ forall k v,
       p !! k = Some v ->
       (k = "scheme" /\ v = scheme)
       \/ exists kvpair, In kvpair kvpairs /\ chunk_entry kvpair = Return (k, v).
Proof.
  intros Ha Hs Hk Hp. pose proof (parse_success _ _ _ _ _ _ Ha Hs Hk Hp) as Hf.
  split.
  - apply (fill_params_keeps_keys _ _ _ _ Hf).
    rewrite lookup_singleton_eq. eauto.
  - intros k v Hl.
    destruct (fill_params_origin _ _ _ _ _ Hf Hl) as [H|H]; [left|right; exact H].
    apply lookup_singleton_Some in H as [<- <-]. auto.
Qed.

Lemma parsed_entries_come_from_header_witness :
  is_Some (({[ "scheme" := "Hawk"; "ts" := "1" ]} : gmap string string)
             !! "scheme")
  /\ (("ts" = "scheme" /\ "1" = "Hawk")
      \/ exists kvpair, In kvpair ["ts=1"]
                        /\ chunk_entry kvpair = Return ("ts", "1")).
Proof.
  destruct (parsed_entries_come_from_header
              (request_with_header (Some "Hawk ts=1")) "Hawk ts=1" "Hawk"
              "ts=1" ["ts=1"] {[ "scheme" := "Hawk"; "ts" := "1" ]})
    as [H1 H2]; try (vm_compute; reflexivity).
  split; [exact H1|]. apply H2. vm_compute. reflexivity.
Defined.

(** X5.  When a key occurs in several chunks the last one wins, and the
    [scheme] entry is no exception: a parameter named [scheme] replaces the
    scheme name of the header. *)
Theorem last_duplicate_wins
    req authz scheme kvpairs_str before kvpair after
    (p : gmap string string) k v :
  HTTP_AUTHORIZATION req = Some authz ->
  Py.split_ws1 authz = [scheme; kvpairs_str] ->
  split_kvpairs kvpairs_str = Return (before ++ kvpair :: after) ->
  parse_authz_header_try req = Return p ->
  chunk_entry kvpair = Return (k, v) ->
  (forall kv v', In kv after -> chunk_entry kv <> Return (k, v')) ->
  p !! k = Some v.
Proof.
  intros Ha Hs Hk Hp He Hno.
  pose proof (parse_success _ _ _ _ _ _ Ha Hs Hk Hp) as Hf.
  exact (fill_params_last_wins _ _ _ _ _ _ _ Hf He Hno).
Qed.

Lemma last_duplicate_wins_witness :
  ({[ "scheme" := "Hawk"; "a" := "2" ]} : gmap string string) !! "a"
    = Some "2"
  /\ ({[ "scheme" := "Basic" ]} : gmap string string) !! "scheme"
     = Some "Basic".
Proof.
  split.
  - apply (last_duplicate_wins
             (request_with_header (Some "Hawk a=1, a=2")) "Hawk a=1, a=2"
             "Hawk" "a=1, a=2" ["a=1"] " a=2" []);
      try (vm_compute; reflexivity).
    intros kv v' [].
  - apply (last_duplicate_wins
             (request_with_header (Some "Hawk scheme=Basic"))
             "Hawk scheme=Basic" "Hawk" "scheme=Basic" [] "scheme=Basic" []);
      try (vm_compute; reflexivity).
    intros kv v' [].
Defined.

(** ** More on the request string *)

(** X6.  Of the parameters, the request string reads [ts], [nonce], [ext]
    and, when no server hash is given, [hash]: two dicts that agree on these
    give the same outcome.  The other entries ([id], [mac], [scheme], ...)
    play no part, and with a server hash the [hash] entry plays none
    either. *)
Theorem request_string_reads_four_keys
    req (p1 p2 : gmap string string) server_hash :
  p1 !! "ts" = p2 !! "ts" ->
  p1 !! "nonce" = p2 !! "nonce" ->
  p1 !! "ext" = p2 !! "ext" ->
  (server_hash = None -> p1 !! "hash" = p2 !! "hash") ->
  get_normalized_request_string req (Some p1) server_hash
  = get_normalized_request_string req (Some p2) server_hash.
Proof.
  intros Hts Hn Hext Hhash.
  rewrite (request_string_eq req (Some p1) server_hash p1 eq_refl).
  rewrite (request_string_eq req (Some p2) server_hash p2 eq_refl).
  unfold getitem, get_or_empty, hash_field. rewrite Hts, Hn, Hext.
  destruct server_hash as [h|]; [reflexivity|].
  unfold get_or_empty. rewrite (Hhash eq_refl). reflexivity.
Qed.

Lemma request_string_reads_four_keys_witness :
  get_normalized_request_string example_request
    (Some (<[ "hash" := "abc" ]> (<[ "id" := "dh37fgj492je" ]> example_params)))
    (Some "Yi9LfIIFRtBEPt74PVmbTF/xVAwPn7ub15ePICfgnuY=")
  = get_normalized_request_string example_request (Some example_params)
      (Some "Yi9LfIIFRtBEPt74PVmbTF/xVAwPn7ub15ePICfgnuY=").
Proof.
  apply (request_string_reads_four_keys example_request
           (<[ "hash" := "abc" ]> (<[ "id" := "dh37fgj492je" ]> example_params))
           example_params
           (Some "Yi9LfIIFRtBEPt74PVmbTF/xVAwPn7ub15ePICfgnuY="));
    try reflexivity.
  discriminate.
Defined.

Definition set_host (h : string) (req : request) : request :=
  {| HTTP_AUTHORIZATION := HTTP_AUTHORIZATION req; method := method req;
     path_qs := path_qs req; host := h; scheme := scheme req;
     text := text req; content_type := content_type req |}.

Definition set_scheme (s : string) (req : request) : request :=
  {| HTTP_AUTHORIZATION := HTTP_AUTHORIZATION req; method := method req;
     path_qs := path_qs req; host := host req; scheme := s;
     text := text req; content_type := content_type req |}.

Lemma request_string_eq' req params server_hash :
  get_normalized_request_string req params server_hash =
    (p ← effective_params req params;
     ts ← getitem p "ts";
     nonce ← getitem p "nonce";
     '(h, port) ← host_and_port req;
     Return (request_layout ts nonce (Py.upper (method req)) (path_qs req)
               (Py.lower h) port (hash_field p server_hash)
               (get_or_empty p "ext"))).
Proof.
  destruct (effective_params_total req params) as [p Hp].
  rewrite (request_string_eq _ _ _ _ Hp), Hp. reflexivity.
Qed.

(** X7.  The default port written out is the same as the default port left
    out: on [http] the host [h:80], and on [https] the host [h:443], give the
    request string of the host [h].  And once the host carries a port the
    scheme is not looked at. *)
Theorem explicit_default_port req params server_hash h :
  contains ":" h = false ->
  (scheme req = "http" ->
   get_normalized_request_string (set_host (h +:+ ":80") req) params server_hash
   = get_normalized_request_string (set_host h req) params server_hash)
  /\ (scheme req = "https" ->
      get_normalized_request_string (set_host (h +:+ ":443") req) params
        server_hash
      = get_normalized_request_string (set_host h req) params server_hash)
  /\ (forall port s,
        contains ":" port = false ->
        get_normalized_request_string
          (set_scheme s (set_host (h +:+ String ":" port) req)) params
          server_hash
        = get_normalized_request_string
            (set_host (h +:+ String ":" port) req) params server_hash).
Proof.
  intros Hh. rewrite !request_string_eq'.
  split; [|split].
  - intros Hs.
    rewrite (host_and_port_explicit (set_host (h +:+ ":80") req) h "80")
      by reflexivity.
    rewrite (host_and_port_default (set_host h req)) by exact Hh.
    simpl scheme. rewrite Hs. reflexivity.
  - intros Hs.
    rewrite (host_and_port_explicit (set_host (h +:+ ":443") req) h "443")
      by reflexivity.
    rewrite (host_and_port_default (set_host h req)) by exact Hh.
    simpl scheme. rewrite Hs. reflexivity.
  - intros port s Hp. rewrite !request_string_eq'.
    rewrite (host_and_port_explicit
               (set_scheme s (set_host (h +:+ String ":" port) req)) h port)
      by (reflexivity || exact Hp).
    rewrite (host_and_port_explicit
               (set_host (h +:+ String ":" port) req) h port)
      by (reflexivity || exact Hp).
    reflexivity.
Qed.

Lemma explicit_default_port_witness :
  get_normalized_request_string
      (set_host "example.com:80" example_request) (Some example_params) None
    = get_normalized_request_string
        (set_host "example.com" example_request) (Some example_params) None.
Proof.
  apply (proj1 (explicit_default_port example_request (Some example_params)
                  None "example.com" eq_refl)).
  reflexivity.
Defined.



(** ** The request string as a sequence of lines *)

(** The eight entries of [bits] that vary: everything but the tag and the
    closing empty string. *)
Definition request_fields (req : request) (p : gmap string string)
    (server_hash : option string) : result (list string) :=
  ts ← getitem p "ts";
  nonce ← getitem p "nonce";
  '(h, port) ← host_and_port req;
  Return [ts; nonce; Py.upper (method req); path_qs req; Py.lower h; port;
          hash_field p server_hash; get_or_empty p "ext"].

Lemma request_string_fields req params server_hash :
  get_normalized_request_string req params server_hash =
    (p ← effective_params req params;
     fs ← request_fields req p server_hash;
     Return (Py.join newline ("hawk.1.header" :: fs ++ [EmptyString]))).
Proof.
  rewrite request_string_eq'. unfold request_fields.
  destruct (effective_params req params) as [p|]; simpl; [|reflexivity].
  destruct (getitem p "ts") as [ts|]; simpl; [|reflexivity].
  destruct (getitem p "nonce") as [nonce|]; simpl; [|reflexivity].
  destruct (host_and_port req) as [[h port]|]; simpl; reflexivity.
Qed.

Definition newline_free (s : string) : Prop := contains "010" s = false.

Lemma cut_at_char c a a' r r' :
  contains c a = false -> contains c a' = false ->
  a +:+ String c r = a' +:+ String c r' -> a = a' /\ r = r'.
Proof.
  revert a'. induction a as [|x a IH]; intros [|x' a'] Ha Ha' H.
  - rewrite !append_nil_l in H. injection H as ->. auto.
  - rewrite append_nil_l, append_cons in H. injection H as <- _.
    simpl in Ha'. rewrite Ascii.eqb_refl in Ha'. discriminate.
  - rewrite append_nil_l, append_cons in H. injection H as -> _.
    simpl in Ha. rewrite Ascii.eqb_refl in Ha. discriminate.
  - rewrite !append_cons in H. injection H as -> H.
    simpl in Ha, Ha'. apply orb_false_iff in Ha as [_ Ha].
    apply orb_false_iff in Ha' as [_ Ha'].
    destruct (IH _ Ha Ha' H) as [-> ->]. auto.
Qed.

Lemma cut_at_newline a a' r r' :
  newline_free a -> newline_free a' ->
  a +:+ newline +:+ r = a' +:+ newline +:+ r' -> a = a' /\ r = r'.
Proof. exact (cut_at_char "010" a a' r r'). Qed.

Lemma append_char_inj a a' c :
  a +:+ String c EmptyString = a' +:+ String c EmptyString -> a = a'.
Proof.
  revert a'. induction a as [|x a IH]; intros [|x' a'] H.
  - reflexivity.
  - rewrite append_cons in H. injection H as _ H.
    destruct a'; discriminate.
  - rewrite append_cons in H. injection H as _ H.
    destruct a; discriminate.
  - rewrite !append_cons in H. injection H as -> H.
    rewrite (IH _ H). reflexivity.
Qed.

Lemma request_layout_inj a1 a2 a3 a4 a5 a6 a7 a8 b1 b2 b3 b4 b5 b6 b7 b8 :
  Forall newline_free [a1; a2; a3; a4; a5; a6; a7] ->
  Forall newline_free [b1; b2; b3; b4; b5; b6; b7] ->
  request_layout a1 a2 a3 a4 a5 a6 a7 a8
  = request_layout b1 b2 b3 b4 b5 b6 b7 b8 ->
  [a1; a2; a3; a4; a5; a6; a7] = [b1; b2; b3; b4; b5; b6; b7] /\ a8 = b8.
Proof.
  intros Ha Hb. unfold request_layout.
  repeat match goal with
         | H : Forall _ (_ :: _) |- _ => inversion H; subst; clear H
         | H : Forall _ [] |- _ => clear H
         end.
  intros H. do 2 apply String.app_inj in H.
  repeat match goal with
         | H : ?a +:+ newline +:+ _ = ?b +:+ newline +:+ _ |- _ =>
             apply cut_at_newline in H as [-> H]; [|assumption|assumption]
         end.
  apply append_char_inj in H as ->. auto.
Qed.

(** X9.  The request string is unambiguous as long as no field but the last
    holds a newline: when two calls return the same string, and the first
    seven fields of each (timestamp, nonce, method, path, host, port, hash)
    are free of newlines, the two calls had the same eight fields. *)
Theorem request_string_unambiguous
    req1 req2 params1 params2 sh1 sh2 p1 p2 f1 f2 e1 e2 s :
  effective_params req1 params1 = Return p1 ->
  effective_params req2 params2 = Return p2 ->
  request_fields req1 p1 sh1 = Return (f1 ++ [e1]) ->
  request_fields req2 p2 sh2 = Return (f2 ++ [e2]) ->
  Forall newline_free f1 ->
  Forall newline_free f2 ->
  get_normalized_request_string req1 params1 sh1 = Return s ->
  get_normalized_request_string req2 params2 sh2 = Return s ->
  f1 = f2 /\ e1 = e2.
Proof.
  intros Hp1 Hp2 Hf1 Hf2 Hn1 Hn2 H1 H2.
  rewrite request_string_eq', Hp1 in H1. rewrite request_string_eq', Hp2 in H2.
  simpl in H1, H2. unfold request_fields in Hf1, Hf2.
  destruct (getitem p1 "ts") as [ts1|]; simpl in *; [|discriminate].
  destruct (getitem p1 "nonce") as [n1|]; simpl in *; [|discriminate].
  destruct (host_and_port req1) as [[h1 port1]|]; simpl in *; [|discriminate].
  destruct (getitem p2 "ts") as [ts2|]; simpl in *; [|discriminate].
  destruct (getitem p2 "nonce") as [n2|]; simpl in *; [|discriminate].
  destruct (host_and_port req2) as [[h2 port2]|]; simpl in *; [|discriminate].
  injection Hf1 as Hf1. injection Hf2 as Hf2.
  change [ts1; n1; Py.upper (method req1); path_qs req1; Py.lower h1; port1;
          hash_field p1 sh1; get_or_empty p1 "ext"]
    with ([ts1; n1; Py.upper (method req1); path_qs req1; Py.lower h1; port1;
           hash_field p1 sh1] ++ [get_or_empty p1 "ext"]) in Hf1.
  change [ts2; n2; Py.upper (method req2); path_qs req2; Py.lower h2; port2;
          hash_field p2 sh2; get_or_empty p2 "ext"]
    with ([ts2; n2; Py.upper (method req2); path_qs req2; Py.lower h2; port2;
           hash_field p2 sh2] ++ [get_or_empty p2 "ext"]) in Hf2.
  apply app_inj_tail in Hf1 as [<- <-]. apply app_inj_tail in Hf2 as [<- <-].
  apply (request_layout_inj _ _ _ _ _ _ _ _ _ _ _ _ _ _ _ _ Hn1 Hn2).
  congruence.
Qed.

Lemma request_string_unambiguous_witness :
  ["1353832234"; "j4h3g2"; "GET"; "/resource?a=1"; "example.com"; "80";
   EmptyString]
  = ["1353832234"; "j4h3g2"; "GET"; "/resource?a=1"; "example.com"; "80";
     EmptyString]
  /\ EmptyString = EmptyString.
Proof.
  apply (request_string_unambiguous
           (set_host "EXAMPLE.com:80" example_request) example_request
           (Some example_params) (Some example_params) None None
           example_params example_params
           ["1353832234"; "j4h3g2"; "GET"; "/resource?a=1"; "example.com";
            "80"; EmptyString]
           ["1353832234"; "j4h3g2"; "GET"; "/resource?a=1"; "example.com";
            "80"; EmptyString]
           EmptyString EmptyString
           (request_layout "1353832234" "j4h3g2" "GET" "/resource?a=1"
              "example.com" "80" EmptyString EmptyString));
    try reflexivity; repeat constructor.
Defined.

(** X10.  Nothing escapes or rejects a newline inside a field: text may be
    moved from the end of the [hash] parameter to the start of the [ext]
    parameter across a newline without changing the request string, so the
    restriction to newline-free fields above is needed. *)
Theorem newline_shifts_hash_into_ext req (p : gmap string string) x y z :
  get_normalized_request_string req
    (Some (<[ "hash" := x +:+ newline +:+ y ]> (<[ "ext" := z ]> p))) None
  = get_normalized_request_string req
      (Some (<[ "hash" := x ]> (<[ "ext" := y +:+ newline +:+ z ]> p))) None.
Proof.
  rewrite !request_string_eq'. simpl.
  unfold getitem, hash_field, get_or_empty.
  rewrite !lookup_insert_eq.
  rewrite !(lookup_insert_ne _ "hash" "ts") by discriminate.
  rewrite !(lookup_insert_ne _ "ext" "ts") by discriminate.
  rewrite !(lookup_insert_ne _ "hash" "nonce") by discriminate.
  rewrite !(lookup_insert_ne _ "ext" "nonce") by discriminate.
  rewrite !(lookup_insert_ne _ "hash" "ext") by discriminate.
  rewrite !lookup_insert_eq.
  destruct (p !! "ts") as [ts|]; simpl; [|reflexivity].
  destruct (p !! "nonce") as [nonce|]; simpl; [|reflexivity].
  destruct (host_and_port req) as [[h port]|]; simpl; [|reflexivity].
  unfold request_layout. rewrite !append_assoc. reflexivity.
Qed.

(** ** More on the payload string *)

Definition set_content_type (ct : string) (req : request) : request :=
  {| HTTP_AUTHORIZATION := HTTP_AUTHORIZATION req; method := method req;
     path_qs := path_qs req; host := host req; scheme := scheme req;
     text := text req; content_type := ct |}.

Lemma before_first_append c a b :
  contains c a = false ->
  before_first c (a +:+ String c b) = a.
Proof.
  induction a as [|x a IH]; intros Ha.
  - rewrite append_nil_l. simpl. rewrite Ascii.eqb_refl. reflexivity.
  - rewrite append_cons. simpl in *. apply orb_false_iff in Ha as [Hx Ha].
    rewrite Hx, (IH Ha). reflexivity.
Qed.

Lemma before_first_no_sep c a : contains c a = false -> before_first c a = a.
Proof.
  induction a as [|x a IH]; simpl; [reflexivity|].
  intros Ha. apply orb_false_iff in Ha as [Hx Ha].
  rewrite Hx, (IH Ha). reflexivity.
Qed.

(** X11.  [get_normalized_payload_string] raises only what reading
    [request.text] raises; once the text has been read the call returns, so
    the handler of lines 200-202 is never entered.  The parameters of the
    content type do not reach the payload string: whatever follows the first
    semicolon is dropped. *)
Theorem payload_ignores_content_type_parameters req ct rest :
  (forall e, text req = Raise e -> get_normalized_payload_string req = Raise e)
  /\ (forall body,
        text req = Return body ->
        exists r, get_normalized_payload_string req = Return r)
  /\ (contains ";" ct = false ->
      get_normalized_payload_string
        (set_content_type (ct +:+ String ";" rest) req)
      = get_normalized_payload_string (set_content_type ct req)).
Proof.
  split; [|split].
  - intros e He. unfold get_normalized_payload_string. rewrite He. reflexivity.
  - intros body Hb. unfold get_normalized_payload_string. rewrite Hb.
    destruct body as [|c t]; [simpl; eauto|].
    destruct (split_head ";" (content_type req)) as [r ->]. simpl. eauto.
  - intros Hct. unfold get_normalized_payload_string. simpl.
    destruct (text req) as [[|c t]|e]; try reflexivity.
    destruct (split_head ";" (ct +:+ String ";" rest)) as [r1 ->].
    destruct (split_head ";" ct) as [r2 ->]. simpl.
    rewrite (before_first_append _ _ _ Hct), (before_first_no_sep _ _ Hct).
    reflexivity.
Qed.

Lemma payload_ignores_content_type_parameters_witness :
  get_normalized_payload_string
      (request_with_body "text/plain" (Raise UnicodeDecodeError))
    = Raise UnicodeDecodeError
  /\ get_normalized_payload_string
       (set_content_type "text/plain; charset=utf-8"
          (request_with_body EmptyString (Return euro_body)))
     = get_normalized_payload_string
         (set_content_type "text/plain"
            (request_with_body EmptyString (Return euro_body))).
Proof.
  split.
  - apply (proj1 (payload_ignores_content_type_parameters
                    (request_with_body "text/plain" (Raise UnicodeDecodeError))
                    EmptyString EmptyString)).
    reflexivity.
  - apply (proj2 (proj2 (payload_ignores_content_type_parameters
                           (request_with_body EmptyString (Return euro_body))
                           "text/plain" " charset=utf-8"))).
    reflexivity.
Defined.

(** ** Decoding a quoted value *)

(** Backslash escapes resolved from left to right: a backslash and the
    character after it become that character, except before a newline (the
    dot of [\\.] does not match one) and at the very end, where the backslash
    stays. *)
Fixpoint unescape (s : string) : string :=
  match s with
  | EmptyString => EmptyString
  | String c t =>
      if Ascii.eqb c backslash then
        match t with
        | String d t' =>
            if Ascii.eqb d "010" then String c (unescape t)
            else String d (unescape t')
        | EmptyString => String c EmptyString
        end
      else String c (unescape t)
  end.

(** [w[i:]] *)
Fixpoint drop (i : nat) (w : string) : string :=
  match i, w with
  | O, _ => w
  | S i', String _ t => drop i' t
  | S _, EmptyString => EmptyString
  end.

Lemma get_drop i w :
  String.get i w = match drop i w with String c _ => Some c | EmptyString => None end.
Proof.
  revert i. induction w as [|c t IH]; intros [|i]; simpl; try reflexivity.
  apply IH.
Qed.

Lemma drop_S i w : drop (S i) w = Py.drop_first (drop i w).
Proof.
  revert i. induction w as [|c t IH]; intros [|i]; try reflexivity.
  change (drop (S (S i)) (String c t)) with (drop (S i) t).
  change (drop (S i) (String c t)) with (drop i t). apply IH.
Qed.

Lemma substring_drop i m w : substring i m w = substring 0 m (drop i w).
Proof.
  revert i. induction w as [|c t IH]; intros [|i]; simpl; try reflexivity.
  - destruct m; reflexivity.
  - apply IH.
Qed.

Lemma drop_length i w : String.length (drop i w) = (String.length w - i)%nat.
Proof.
  revert i. induction w as [|c t IH]; intros [|i]; simpl; try reflexivity.
  apply IH.
Qed.

Lemma escaped_char_ends w i :
  Re.ends _ESCAPED_CHAR w i =
    match drop i w with
    | String c (String d _) =>
        if Ascii.eqb c backslash && negb (Ascii.eqb d "010") then [S (S i)]
        else []
    | _ => []
    end.
Proof.
  unfold _ESCAPED_CHAR. simpl. rewrite get_drop.
  destruct (drop i w) as [|c t] eqn:Hd; [reflexivity|].
  assert (Ht : String.get (S i) w
               = match t with String d _ => Some d | EmptyString => None end).
  { rewrite get_drop, drop_S, Hd. reflexivity. }
  destruct (Ascii.eqb c backslash); simpl.
  - rewrite Ht. destruct t as [|d t']; [reflexivity|].
    destruct (Ascii.eqb d "010"); reflexivity.
  - destruct t; reflexivity.
Qed.

Lemma sub_from_S r f w fuel i :
  Re.sub_from r f w (S fuel) i =
    if (String.length w <? i)%nat then EmptyString
    else
      match Re.ends r w i with
      | j :: _ =>
          if (i <? j)%nat
          then f (substring i (j - i) w) +:+ Re.sub_from r f w fuel j
          else f EmptyString +:+ substring i 1 w
               +:+ Re.sub_from r f w fuel (S i)
      | [] => substring i 1 w +:+ Re.sub_from r f w fuel (S i)
      end.
Proof. reflexivity. Qed.

Lemma unescape_cons c t :
  unescape (String c t) =
    if Ascii.eqb c backslash then
      match t with
      | String d t' =>
          if Ascii.eqb d "010" then String c (unescape t)
          else String d (unescape t')
      | EmptyString => String c EmptyString
      end
    else String c (unescape t).
Proof. reflexivity. Qed.

Lemma second_char_pair c d t :
  second_char (substring 0 2 (String c (String d t))) = String d EmptyString.
Proof. destruct t; reflexivity. Qed.

Lemma sub_from_unescape w : forall fuel i,
  (String.length w - i < fuel)%nat ->
  Re.sub_from _ESCAPED_CHAR second_char w fuel i
  = if (String.length w <? i)%nat then EmptyString else unescape (drop i w).
Proof.
  induction fuel as [|fuel IH]; intros i Hfuel; [lia|].
  rewrite sub_from_S.
  destruct (String.length w <? i)%nat eqn:Hlen; [reflexivity|].
  apply Nat.ltb_ge in Hlen. rewrite escaped_char_ends.
  pose proof (drop_length i w) as Hdl.
  rewrite (substring_drop i 1 w).
  destruct (drop i w) as [|c t] eqn:Hd.
  - change (String.length EmptyString) with 0%nat in Hdl.
    change (substring 0 1 EmptyString) with EmptyString.
    rewrite append_nil_l. destruct fuel as [|fuel']; [reflexivity|].
    rewrite sub_from_S.
    replace (String.length w <? S i)%nat with true
      by (symmetry; apply Nat.ltb_lt; lia).
    reflexivity.
  - change (String.length (String c t)) with (S (String.length t)) in Hdl.
    assert (HdS : drop (S i) w = t) by (rewrite drop_S, Hd; reflexivity).
    assert (Hnext : Re.sub_from _ESCAPED_CHAR second_char w fuel (S i)
                    = unescape t).
    { rewrite IH by lia.
      replace (String.length w <? S i)%nat with false
        by (symmetry; apply Nat.ltb_ge; lia).
      rewrite HdS. reflexivity. }
    rewrite unescape_cons.
    destruct t as [|d t'].
    + change (substring 0 1 (String c EmptyString)) with (String c EmptyString).
      rewrite Hnext. destruct (Ascii.eqb c backslash); reflexivity.
    + change (substring 0 1 (String c (String d t')))
        with (String c EmptyString).
      destruct (Ascii.eqb c backslash) eqn:Hc.
      * destruct (Ascii.eqb d "010") eqn:Hdn.
        -- change (true && negb true) with false. cbv iota.
           rewrite Hnext. reflexivity.
        -- change (true && negb false) with true. cbv iota.
           replace (i <? S (S i))%nat with true
             by (symmetry; apply Nat.ltb_lt; lia).
           rewrite (substring_drop i (S (S i) - i) w), Hd.
           replace (S (S i) - i)%nat with 2%nat by lia.
           rewrite second_char_pair.
           assert (HdSS : drop (S (S i)) w = t')
             by (rewrite drop_S, HdS; reflexivity).
           change (String.length (String d t'))
             with (S (String.length t')) in Hdl.
           rewrite IH by lia.
           replace (String.length w <? S (S i))%nat with false
             by (symmetry; apply Nat.ltb_ge; lia).
           rewrite HdSS. reflexivity.
      * change (false && negb (Ascii.eqb d "010")) with false. cbv iota.
        rewrite Hnext. reflexivity.
Qed.

Lemma sub_escaped_char w : Re.sub _ESCAPED_CHAR second_char w = unescape w.
Proof.
  unfold Re.sub. rewrite sub_from_unescape by lia. reflexivity.
Qed.

(** A backslash put before every quote and every backslash. *)
Fixpoint escape (s : string) : string :=
  match s with
  | EmptyString => EmptyString
  | String c t =>
      if Ascii.eqb c dquote || Ascii.eqb c backslash
      then String backslash (String c (escape t))
      else String c (escape t)
  end.

(** Is there a quote in [s] that no backslash precedes, when the character
    before [s] is a backslash ([prev]) or not? *)
Fixpoint unescaped_from (prev : bool) (s : string) : bool :=
  match s with
  | EmptyString => false
  | String c t =>
      (Ascii.eqb c dquote && negb prev) || unescaped_from (Ascii.eqb c backslash) t
  end.

Lemma unescaped_from_complete s : forall prev i,
  String.get i s = Some dquote ->
  (i = 0%nat /\ prev = false)
  \/ (exists j c, i = S j /\ String.get j s = Some c /\ c <> backslash) ->
  unescaped_from prev s = true.
Proof.
  induction s as [|x t IH]; intros prev i Hq Hprev; [discriminate|].
  simpl. destruct i as [|i].
  - injection Hq as ->. destruct Hprev as [[_ ->]|(j & c & Hj & _)];
      [reflexivity|discriminate].
  - simpl in Hq. apply orb_true_iff. right.
    destruct Hprev as [[Hi _]|(j & c & Hj & Hc & Hne)]; [discriminate|].
    injection Hj as <-. apply (IH _ i Hq). destruct i as [|i].
    + left. split; [reflexivity|]. injection Hc as ->.
      destruct (Ascii.eqb c backslash) eqn:E; [|reflexivity].
      apply Ascii.eqb_eq in E. contradiction.
    + right. exists i, c. auto.
Qed.

Lemma escape_has_no_unescaped_quote s : ~ has_unescaped_quote (escape s).
Proof.
  assert (H : forall prev, unescaped_from prev (escape s) = false).
  { induction s as [|c t IH]; intros prev; [reflexivity|]. simpl.
    destruct (Ascii.eqb c dquote) eqn:Eq; simpl.
    - apply Ascii.eqb_eq in Eq as ->. simpl. apply IH.
    - destruct (Ascii.eqb c backslash) eqn:Eb; simpl.
      + apply Ascii.eqb_eq in Eb as ->. simpl. apply IH.
      + rewrite Eq, Eb. simpl. apply IH. }
  intros (i & Hq & Hprev).
  assert (Ht : unescaped_from false (escape s) = true).
  { apply (unescaped_from_complete _ false i Hq).
    destruct i as [|i]; [left; auto|].
    destruct Hprev as [Hi|(c & Hc & Hne)]; [discriminate|].
    right. exists i, c. auto. }
  rewrite H in Ht. discriminate.
Qed.

Lemma unescape_escape s : unescape (escape s) = s.
Proof.
  induction s as [|c t IH]; [reflexivity|]. simpl.
  destruct (Ascii.eqb c dquote) eqn:Eq; simpl.
  - apply Ascii.eqb_eq in Eq as ->. simpl. rewrite IH. reflexivity.
  - destruct (Ascii.eqb c backslash) eqn:Eb; simpl.
    + apply Ascii.eqb_eq in Eb as ->. simpl. rewrite IH. reflexivity.
    + rewrite Eb, IH. reflexivity.
Qed.

Lemma drop_last_snoc s c : Py.drop_last (s +:+ String c EmptyString) = s.
Proof.
  induction s as [|x s IH]; [reflexivity|].
  rewrite append_cons. simpl.
  destruct (s +:+ String c EmptyString) as [|y u] eqn:E.
  - destruct s; discriminate.
  - rewrite IH. reflexivity.
Qed.

Lemma slice_quoted s : Py.slice_1_m1 (quoted s) = s.
Proof. unfold Py.slice_1_m1, quoted. simpl. apply drop_last_snoc. Qed.

(** X15.  What [decode_value] does.  A value that does not start with a
    quote is returned as it is.  A value that starts with one loses its first
    and last characters; if a quote that no backslash precedes is left, the
    call raises; otherwise every backslash and the character after it are
    replaced by that character, from left to right (a backslash before a
    newline, or at the very end, stays). *)
Theorem decode_value_resolves_escapes value :
  (Py.startswith dquote value = false -> decode_value value = Return value)
  /\ (Py.startswith dquote value = true ->
      has_unescaped_quote (Py.slice_1_m1 value) ->
      decode_value value = Raise (ValueError Unescaped_quote))
  /\ (Py.startswith dquote value = true ->
      ~ has_unescaped_quote (Py.slice_1_m1 value) ->
      decode_value value = Return (unescape (Py.slice_1_m1 value))).
Proof.
  unfold decode_value. split; [|split].
  - intros ->. reflexivity.
  - intros -> Hq. apply search_unescaped_quote in Hq. rewrite Hq. reflexivity.
  - intros -> Hq.
    destruct (Re.search _UNESC_QUOTE_RE (Py.slice_1_m1 value)) eqn:E.
    + apply search_unescaped_quote in E. contradiction.
    + rewrite sub_escaped_char. reflexivity.
Qed.

Lemma decode_value_resolves_escapes_witness :
  decode_value "abc" = Return "abc"
  /\ decode_value (quoted ("a" +:+ String dquote "b"))
     = Raise (ValueError Unescaped_quote)
  /\ decode_value
       (quoted ("a" +:+ String backslash (String backslash
                  (String backslash (String dquote "b")))))
     = Return ("a" +:+ String backslash (String dquote "b")).
Proof.
  split; [|split].
  - apply (proj1 (decode_value_resolves_escapes "abc")). reflexivity.
  - apply (proj1 (proj2 (decode_value_resolves_escapes
                           (quoted ("a" +:+ String dquote "b")))));
      [reflexivity|].
    exists 1%nat. split; [reflexivity|]. right. exists "a"%char.
    split; [reflexivity|discriminate].
  - apply (proj2 (proj2 (decode_value_resolves_escapes
             (quoted ("a" +:+ String backslash (String backslash
                        (String backslash (String dquote "b"))))))));
      [reflexivity|].
    intros H. apply search_unescaped_quote in H. vm_compute in H. discriminate.
Defined.

(** X16.  Quoting round trip: a text with a backslash put before each of its
    quotes and backslashes, set between two quotes, decodes to the text
    itself, whatever the text. *)
Theorem decode_value_round_trip s :
  decode_value (quoted (escape s)) = Return s.
Proof.
  unfold decode_value.
  change (Py.startswith dquote (quoted (escape s))) with true. cbv iota.
  rewrite slice_quoted.
  destruct (Re.search _UNESC_QUOTE_RE (escape s)) eqn:E.
  - apply search_unescaped_quote in E.
    destruct (escape_has_no_unescaped_quote s E).
  - rewrite sub_escaped_char, unescape_escape. reflexivity.
Qed.

(** ** A closing quote after a backslash *)

Lemma star_chr_ends k w fuel : forall i j,
  In j (Re.star_ends (Re.ends (Re.Chr k) w) fuel i) ->
  j = i
  \/ ((i < j)%nat
      /\ exists c, String.get (pred j) w = Some c /\ Re.cls_mem k c = true).
Proof.
  induction fuel as [|fuel IH]; intros i j Hj.
  - destruct Hj as [<-|[]]. left. reflexivity.
  - simpl in Hj. apply in_app_or in Hj as [Hj|[<-|[]]]; [|left; reflexivity].
    apply in_flat_map in Hj as (x & Hx & Hj).
    apply in_ends_chr in Hx as (c & Hc & Hk & ->).
    replace (i <? S i)%nat with true in Hj by (symmetry; apply Nat.ltb_lt; lia).
    right. destruct (IH _ _ Hj) as [->|(Hlt & c' & Hc' & Hk')].
    + split; [lia|]. exists c. auto.
    + split; [lia|]. exists c'. auto.
Qed.

Lemma in_ends_star_chr k w i j :
  In j (Re.ends (Re.Star (Re.Chr k)) w i) ->
  j = i
  \/ ((i < j)%nat
      /\ exists c, String.get (pred j) w = Some c /\ Re.cls_mem k c = true).
Proof. exact (star_chr_ends k w (String.length w) i j). Qed.

Lemma in_ends_eol w i j :
  In j (Re.ends Re.Eol w i) ->
  j = i
  /\ (i = String.length w
      \/ (S i = String.length w /\ String.get i w = Some "010"%char)).
Proof.
  simpl. unfold Re.at_eol.
  destruct (i =? String.length w)%nat eqn:E1.
  - intros [<-|[]]. apply Nat.eqb_eq in E1. auto.
  - destruct (S i =? String.length w)%nat eqn:E2; [|intros []].
    destruct (String.get i w) as [c|]; [|intros []].
    destruct (Ascii.eqb c "010") eqn:E3; [|intros []].
    intros [<-|[]]. apply Nat.eqb_eq in E2. apply Ascii.eqb_eq in E3 as ->.
    auto.
Qed.

Lemma get_append_0 pre s : String.get (String.length pre) (pre +:+ s) = String.get 0 s.
Proof. induction pre as [|c pre IH]; [reflexivity|]. exact IH. Qed.

Lemma get_append_1 pre a b :
  String.get (S (String.length pre)) (pre +:+ String a (String b EmptyString))
  = Some b.
Proof. induction pre as [|c pre IH]; [reflexivity|]. exact IH. Qed.

Lemma length_append a b :
  String.length (a +:+ b) = (String.length a + String.length b)%nat.
Proof.
  induction a as [|c a IH]; [reflexivity|].
  rewrite append_cons. simpl. rewrite IH. reflexivity.
Qed.

(** A chunk that ends with a backslash and a quote fails the grammar. *)
Lemma backslash_quote_not_grammatical pre :
  Re.match_ _AUTH_PARAM_RE (pre +:+ String backslash (String dquote EmptyString))
  = false.
Proof.
  set (w := pre +:+ String backslash (String dquote EmptyString)).
  set (n := String.length pre).
  assert (Hlen : String.length w = S (S n)).
  { unfold w. rewrite length_append. simpl. unfold n. lia. }
  assert (Hbs : String.get n w = Some backslash)
    by (unfold w, n; rewrite get_append_0; reflexivity).
  assert (Hq : String.get (S n) w = Some dquote)
    by (unfold w, n; apply get_append_1).
  destruct (Re.match_ _AUTH_PARAM_RE w) eqn:Hm; [exfalso|reflexivity].
  unfold Re.match_ in Hm. apply matches_at_true in Hm as [j Hj].
  unfold _AUTH_PARAM_RE, Re.seq_of in Hj.
  apply in_ends_cat in Hj as (k1 & _ & Hj).
  apply in_ends_cat in Hj as (k2 & _ & Hj).
  apply in_ends_cat in Hj as (k3 & _ & Hj).
  apply in_ends_cat in Hj as (k4 & _ & Hj).
  apply in_ends_cat in Hj as (k5 & Hval & Hj).
  apply in_ends_cat in Hj as (k6 & Hsp & Heol).
  (* the end of the match is the end of the chunk *)
  assert (Hk6 : k6 = S (S n)).
  { apply in_ends_eol in Heol as [_ [H|[H Hnl]]]; [congruence|].
    rewrite Hlen in H. injection H as ->. rewrite Hq in Hnl. discriminate. }
  subst k6.
  (* no white space before it *)
  assert (Hk5 : k5 = S (S n)).
  { apply in_ends_star_chr in Hsp as [H|(_ & c & Hc & Hk)];
      [symmetry; exact H|].
    simpl in Hc. rewrite Hq in Hc. injection Hc as <-. discriminate. }
  subst k5.
  (* the three shapes of a value *)
  change (In (S (S n))
            (Re.ends (Re.Plus (Re.Chr token_char)) w k4
             ++ (Re.ends (Re.Cat (Re.Chr (Re.Lit dquote))
                                 (Re.Chr (Re.Lit dquote))) w k4
                 ++ Re.ends
                      (Re.Cat (Re.Chr (Re.Lit dquote))
                         (Re.Cat (Re.Star (Re.Chr Re.Dot))
                            (Re.Cat (Re.Chr (Re.NotLit backslash))
                               (Re.Chr (Re.Lit dquote))))) w k4))) in Hval.
  apply in_app_or in Hval as [Hval|Hval];
    [|apply in_app_or in Hval as [Hval|Hval]].
  - unfold Re.Plus in Hval. apply in_ends_cat in Hval as (x & Hx & Hst).
    apply in_ends_chr in Hx as (c & Hc & Hk & ->).
    apply in_ends_star_chr in Hst as [H|(_ & c' & Hc' & Hk')].
    + injection H as <-. rewrite Hq in Hc. injection Hc as <-. discriminate.
    + simpl in Hc'. rewrite Hq in Hc'. injection Hc' as <-. discriminate.
  - apply in_ends_cat in Hval as (x & Hx & Hy).
    apply in_ends_chr in Hx as (c & Hc & Hk & ->).
    apply in_ends_chr in Hy as (c' & Hc' & Hk' & H).
    injection H as <-. rewrite Hbs in Hc. injection Hc as <-. discriminate.
  - apply in_ends_cat in Hval as (x & _ & Hval).
    apply in_ends_cat in Hval as (y & _ & Hval).
    apply in_ends_cat in Hval as (z & Hz & Hy).
    apply in_ends_chr in Hz as (c & Hc & Hk & ->).
    apply in_ends_chr in Hy as (c' & Hc' & Hk' & H).
    injection H as <-. rewrite Hbs in Hc. injection Hc as <-. discriminate.
Qed.

Lemma grammatical_length kvpair :
  grammatical kvpair -> (2 <= String.length kvpair)%nat.
Proof.
  unfold grammatical, Re.match_. rewrite matches_at_true. intros [j Hj].
  unfold _AUTH_PARAM_RE, Re.seq_of in Hj.
  apply in_ends_cat in Hj as (k1 & _ & Hj).
  apply in_ends_cat in Hj as (k2 & _ & Hj).
  apply in_ends_cat in Hj as (k3 & Hkey & Hj).
  apply in_ends_cat in Hj as (k4 & Heq & _).
  apply in_ends_chr in Heq as (c & Hget & _ & _). apply get_lt in Hget.
  unfold Re.Plus in Hkey. apply in_ends_cat in Hkey as (x & Hx & Hst).
  apply in_ends_chr in Hx as (c' & _ & _ & ->).
  apply in_ends_star_chr in Hst as [->|[Hlt _]]; lia.
Qed.

Lemma join_ends_with_last sep init l :
  exists pre, Py.join sep (init ++ [l]) = pre +:+ l.
Proof.
  induction init as [|x init [pre IH]].
  - exists EmptyString. reflexivity.
  - exists (x +:+ sep +:+ pre). simpl app.
    destruct (init ++ [l]) as [|y r] eqn:E; [destruct init; discriminate|].
    rewrite join_cons, IH, !append_assoc. reflexivity.
Qed.

Lemma suffix_of_two pre : forall l x a b,
  pre +:+ l = x +:+ String a (String b EmptyString) ->
  (2 <= String.length l)%nat ->
  exists l', l = l' +:+ String a (String b EmptyString).
Proof.
  induction pre as [|c pre IH]; intros l x a b H Hl.
  - exists x. exact H.
  - destruct x as [|c' x].
    + rewrite append_cons, append_nil_l in H. injection H as _ H.
      assert (Hlen : String.length (pre +:+ l) = 1%nat) by (rewrite H; reflexivity).
      rewrite length_append in Hlen. lia.
    + rewrite !append_cons in H. injection H as _ H. exact (IH _ _ _ _ H Hl).
Qed.

Lemma split_kvpairs_trailing_backslash pre :
  split_kvpairs (pre +:+ String backslash (String dquote EmptyString))
  = Raise (ValueError Malformed_auth_parameters).
Proof.
  set (s := pre +:+ String backslash (String dquote EmptyString)).
  destruct (split_kvpairs_outcome s) as [(kvpairs & Hk & Hg)|H]; [exfalso|exact H].
  pose proof (split_kvpairs_join _ _ Hk) as Hj.
  destruct (exists_last (l := kvpairs)) as (init & l & ->).
  { intros ->. simpl in Hj.
    assert (Hlen : String.length s = 0%nat) by (rewrite <- Hj; reflexivity).
    unfold s in Hlen. rewrite length_append in Hlen. simpl in Hlen. lia. }
  apply Forall_app in Hg as [_ Hl]. inversion Hl as [|? ? Hgl _]; subst.
  destruct (join_ends_with_last "," init l) as [pre' Hpre].
  rewrite Hpre in Hj.
  destruct (suffix_of_two _ _ _ _ _ Hj (grammatical_length _ Hgl)) as [l' ->].
  unfold grammatical in Hgl.
  rewrite backslash_quote_not_grammatical in Hgl. discriminate.
Qed.

(** X17.  A quoted value cannot end with a backslash, not even an escaped
    one: a header whose parameter string ends with a backslash and a quote
    is always malformed, because the grammar wants a closing quote that no
    backslash precedes. *)
Theorem trailing_backslash_is_malformed (D : Type) req authz scheme pre
    (d : D) ds :
  HTTP_AUTHORIZATION req = Some authz ->
  Py.split_ws1 authz
    = [scheme; pre +:+ String backslash (String dquote EmptyString)] ->
  parse_authz_header req (@nil D)
    = Raise (ValueError Malformed_auth_parameters)
  /\ parse_authz_header req (d :: ds) = Return (inr d).
Proof.
  intros Ha Hs. unfold parse_authz_header.
  rewrite (parse_try_params _ _ _ _ Ha Hs), split_kvpairs_trailing_backslash.
  auto.
Qed.

(** The header [Hawk k="a\\"]: the value [a\], escaped as it should be. *)
Definition trailing_backslash_header : string :=
  "Hawk k=" +:+ quoted (escape ("a" +:+ String backslash EmptyString)).

Lemma trailing_backslash_is_malformed_witness :
  parse_authz_header (request_with_header (Some trailing_backslash_header))
      (@nil unit)
    = Raise (ValueError Malformed_auth_parameters)
  /\ parse_authz_header (request_with_header (Some trailing_backslash_header))
       [tt]
     = Return (inr tt).
Proof.
  apply (trailing_backslash_is_malformed unit
           (request_with_header (Some trailing_backslash_header))
           trailing_backslash_header "Hawk"
           ("k=" +:+ String dquote
                       ("a" +:+ String backslash EmptyString))
           tt []);
    reflexivity.
Defined.
